(** * Shallow embedding of the Digital Studies 101 setup scripts

    The three scripts [installs_required.py], [install_vscode_extensions.py]
    and [setup_python_environment.py] are sequences of checks and external
    command invocations.  They are embedded here in a small state-and-exit
    monad: the state is the observable machine ([World]) together with the
    chronological log of everything the script did to it ([Event]s), and a
    computation either returns or stops through [sys.exit].

    Everything the scripts ask of the operating system (exit status of a
    child process, existence of a path, the effect of a download on the
    machine) is an oracle of the environment record [Env]; the control flow
    around those oracles is translated line by line from the source. *)

From Stdlib Require Import String List ZArith Bool Lia.
Import ListNotations.
Open Scope string_scope.
Set Warnings "-register-all".

Module Runtime.

Inductive Platform := Windows | Darwin | Linux.

(** A child process: its argument vector, the [timeout=] argument (None when
    the call has none) and whether output is captured ([capture_output=True]). *)
Record Cmd := mkCmd {
  argv : list string;
  timeout : option Z;
  capture_output : bool
}.

(** Outcome of [subprocess.run]: a completed process, one of the two
    exceptions the scripts name in their handlers, or any other exception
    (a [PermissionError] on a path that is not executable, another
    [OSError], a decoding error of the captured text). *)
Inductive ProcResult :=
| Completed (returncode : Z) (stderr : string)
| TimeoutExpired
| FileNotFoundError
| OtherError.

(** JSON values as [json.load] returns them; an object is a Python dict,
    kept as an association list in insertion order. *)
Inductive json :=
| JNull
| JBool (b : bool)
| JNum (z : Z)
| JStr (s : string)
| JArr (l : list json)
| JObj (kv : list (string * json)).

(** The [.vscode/settings.json] file. *)
Inductive FileState := NoFile | Contents (j : json) | Unparsable.

(** What is found at the virtual-environment path. *)
Inductive PathState := Absent | IsFile | IsDir (entries : list string).

(** An exception other than the one a handler expects: an [ImportError],
    or anything else. *)
Inductive Raises := RaisesImportError | RaisesOther.

Inductive Event :=
| EvRun (c : Cmd)                 (* a child process is started *)
| EvImport (name : string)        (* an import statement / __import__ *)
| EvNltkDownload (pkg : string)   (* nltk.download(pkg) *)
| EvRmtree (path : string)        (* shutil.rmtree(path) *)
| EvVenvCreate (path : string)    (* venv.create(path, with_pip=True) *)
| EvMakedirs (path : string)      (* os.makedirs(path, exist_ok=True) *)
| EvWriteSettings (path : string). (* open(path, 'w') and json.dump *)

Record World := mkWorld {
  modules : list string;            (* importable top-level modules *)
  nltk_data : list string;          (* resources nltk.data.find succeeds on *)
  spacy_models : list string;       (* models spacy.load succeeds on *)
  geonames_db_size : option Z;      (* geonames.db: None when absent *)
  geoparser_works : bool;           (* geoparser.Geoparser() succeeds *)
  venv_dir : PathState;
  settings_json : FileState
}.

Definition set_venv_dir (p : PathState) (w : World) : World :=
  mkWorld (modules w) (nltk_data w) (spacy_models w) (geonames_db_size w)
          (geoparser_works w) p (settings_json w).

Definition set_settings_json (f : FileState) (w : World) : World :=
  mkWorld (modules w) (nltk_data w) (spacy_models w) (geonames_db_size w)
          (geoparser_works w) (venv_dir w) f.

(** The environment: interpreter facts, [os.path] functions and the
    oracles answering for external programs. [check_call] is always run on
    an interpreter that exists, so its only observable failure is a nonzero
    exit status ([CalledProcessError]).

    [effect] is what an event does to the world where the script does not
    decide it itself: a child process, an NLTK download, and what is left
    behind by a [shutil.rmtree], a [venv.create] or a settings write that
    raises part way through. [import_crash n w]: importing [n], which is
    not importable in [w], raises something other than [ImportError] (an
    [OSError] from a missing shared library, say). [spacy_load_exc m w]:
    what [spacy.load(m)] raises on a model it cannot load, [None] standing
    for the expected [OSError]. [makedirs_ok] and [write_ok]: whether
    [os.makedirs(d, exist_ok=True)] and [open(f, 'w')] with [json.dump]
    succeed. *)
Record Env := mkEnv {
  sys_executable : string;
  py_version : Z * Z;
  platform : Platform;
  path_join : string -> string -> string;
  abspath : string -> string;
  script_dir : string;
  call_rc : list string -> World -> Z;
  run_res : Cmd -> World -> ProcResult;
  which : string -> World -> bool;
  path_exists : string -> World -> bool;
  username : string;
  effect : Event -> World -> World;
  rmtree_ok : World -> bool;
  venv_create_ok : World -> bool;
  venv_layout : list string;
  import_crash : string -> World -> bool;
  spacy_load_exc : string -> World -> option Raises;
  makedirs_ok : string -> World -> bool;
  write_ok : string -> World -> bool
}.

Record St := mkSt { world : World; log : list Event }.

Inductive Res (A : Type) := Ret (a : A) | Exit (code : Z).
Arguments Ret {A} a.
Arguments Exit {A} code.

Definition M (A : Type) := St -> Res A * St.

Definition ret {A} (a : A) : M A := fun s => (Ret a, s).

Definition bind {A B} (m : M A) (k : A -> M B) : M B :=
  fun s => match m s with
           | (Ret a, s') => k a s'
           | (Exit c, s') => (Exit c, s')
           end.

Notation "x <- m ;; k" := (bind m (fun x => k))
  (at level 61, m at next level, right associativity).

Definition sys_exit {A} (code : Z) : M A := fun s => (Exit code, s).

(** An exception no handler catches: the interpreter prints the traceback
    and ends with exit status 1. *)
Definition uncaught_exception {A} : M A := sys_exit 1%Z.

Definition gets {A} (f : World -> A) : M A := fun s => (Ret (f (world s)), s).

(** An event whose effect on the world the script itself decides. *)
Definition record (e : Event) (f : World -> World) : M unit :=
  fun s => (Ret tt, mkSt (f (world s)) (log s ++ [e])).

(** An event whose effect is up to the environment. *)
Definition emit (env : Env) (e : Event) : M unit :=
  fun s => (Ret tt, mkSt (effect env e (world s)) (log s ++ [e])).

(** [subprocess.check_call(args)]: no timeout, no capture; [true] when the
    exit status is zero, [false] when it raises [CalledProcessError]. *)
Definition check_call (env : Env) (args : list string) : M bool :=
  fun s =>
    let c := mkCmd args None false in
    (Ret (call_rc env args (world s) =? 0)%Z,
     mkSt (effect env (EvRun c) (world s)) (log s ++ [EvRun c])).

(** [subprocess.run(args, capture_output=True, text=True, timeout=t)]. *)
Definition subprocess_run (env : Env) (args : list string) (t : Z) : M ProcResult :=
  fun s =>
    let c := mkCmd args (Some t) true in
    (Ret (run_res env c (world s)),
     mkSt (effect env (EvRun c) (world s)) (log s ++ [EvRun c])).

Definition mem (x : string) (l : list string) : bool := existsb (String.eqb x) l.

(** [import name] / [__import__(name)] inside [try: ... except ImportError]:
    true when it imports, false when it raises [ImportError]. Any other
    exception is not caught: [__import__('')] raises [ValueError], and a
    module that is present but broken may raise [OSError] or the like. *)
Definition try_import (env : Env) (name : string) : M bool :=
  _ <- record (EvImport name) (fun w => w) ;;
  if String.eqb name "" then uncaught_exception
  else
    found <- gets (fun w => mem name (modules w)) ;;
    if found then ret true
    else
      crash <- gets (import_crash env name) ;;
      if crash then uncaught_exception else ret false.

(** What [spacy.load(m)] does: load the model, raise the [OSError] of a
    model that is not installed, or raise something else. *)
Inductive SpacyLoad := Loaded | LoadOSError | LoadRaises (r : Raises).

Definition spacy_load (env : Env) (m : string) (w : World) : SpacyLoad :=
  if mem m (spacy_models w) then Loaded
  else match spacy_load_exc env m w with
       | None => LoadOSError
       | Some r => LoadRaises r
       end.

(** [for x in l: body(x)] *)
Fixpoint for_each {A} (l : list A) (body : A -> M unit) : M unit :=
  match l with
  | [] => ret tt
  | x :: l' => _ <- body x ;; for_each l' body
  end.

(** [for x in l: ... acc.append(...)] *)
Fixpoint fold_m {A B} (l : list A) (body : B -> A -> M B) (acc : B) : M B :=
  match l with
  | [] => ret acc
  | x :: l' => acc' <- body acc x ;; fold_m l' body acc'
  end.

(** A loop whose body may [return] a value. *)
Fixpoint find_first {A B} (l : list A) (body : A -> M (option B)) : M (option B) :=
  match l with
  | [] => ret None
  | x :: l' => r <- body x ;;
               match r with
               | Some b => ret (Some b)
               | None => find_first l' body
               end
  end.

(** [sys.version_info[:2] < min_version]: lexicographic tuple order. *)
Definition version_lt (a b : Z * Z) : bool :=
  (fst a <? fst b)%Z || ((fst a =? fst b)%Z && (snd a <? snd b)%Z).

(** [s.split(sep)[0]]: the part of [s] before the first occurrence of [sep]. *)
Fixpoint split_head (sep s : string) : string :=
  match s with
  | EmptyString => EmptyString
  | String c s' => if String.prefix sep s then EmptyString
                   else String c (split_head sep s')
  end.

End Runtime.

(** ** [installs_required.py] *)
Module InstallsRequired.
Import Runtime.

Section Script.
Variable env : Env.

Definition check_python_version : M bool :=
  ret (negb (version_lt (py_version env) (3, 8)%Z)).

Definition pip_install_argv (python : string) (package_name : string) : list string :=
  [python; "-m"; "pip"; "install"; "--upgrade"; package_name].

(** [package_name.split('>=')[0].split('<')[0]] *)
Definition default_import_name (package_name : string) : string :=
  split_head "<" (split_head ">=" package_name).

Definition check_and_install_package (package_name : string)
    (import_name : option string) : M bool :=
  let import_name := match import_name with
                     | None => default_import_name package_name
                     | Some n => n
                     end in
  found <- try_import env import_name ;;
  if found then ret true
  else ok <- check_call env (pip_install_argv (sys_executable env) package_name) ;;
       ret ok.

Definition upgrade_pip : M bool :=
  ok <- check_call env (pip_install_argv (sys_executable env) "pip") ;;
  ret ok.

Definition nltk_data_packages : list (string * string) :=
  [("punkt", "tokenizers/punkt"); ("vader_lexicon", "vader_lexicon")].

Definition check_and_download_nltk_data : M unit :=
  has_nltk <- try_import env "nltk" ;;
  if negb has_nltk then ret tt
  else for_each nltk_data_packages (fun '(package, path) =>
         found <- gets (fun w => mem path (nltk_data w)) ;;
         if found then ret tt else emit env (EvNltkDownload package)).

Definition spacy_download_argv (python model_name : string) : list string :=
  [python; "-m"; "spacy"; "download"; model_name].

Definition spacy_models_required : list string :=
  ["en_core_web_sm"; "en_core_web_md"; "en_core_web_trf"].

(** The loop of lines 126-136. An [ImportError] raised by [spacy.load]
    leaves the loop for the outer [except ImportError] (line 137): the
    remaining models are not looked at. Any other exception is not caught. *)
Fixpoint spacy_model_loop (models : list string) : M unit :=
  match models with
  | [] => ret tt
  | model_name :: models' =>
      r <- gets (spacy_load env model_name) ;;
      match r with
      | Loaded => spacy_model_loop models'
      | LoadOSError =>
          _ <- check_call env (spacy_download_argv (sys_executable env) model_name) ;;
          spacy_model_loop models'
      | LoadRaises RaisesImportError => ret tt
      | LoadRaises RaisesOther => uncaught_exception
      end
  end.

Definition check_and_download_spacy_model : M unit :=
  has_spacy <- try_import env "spacy" ;;
  if negb has_spacy then ret tt
  else spacy_model_loop spacy_models_required.

Definition geonames_download_argv (python : string) : list string :=
  [python; "-m"; "geoparser"; "download"; "geonames"].

(** The function returns [True], [False] or falls off its end ([None]):
    [Some b] is [return b], [None] is the implicit [return None]. In the
    branch where [appdirs] imports, the download block is not reached: it
    sits inside the [except ImportError] handler of that import. *)
Definition check_and_setup_geoparser : M (option bool) :=
  has_geoparser <- try_import env "geoparser" ;;
  if negb has_geoparser then ret (Some false)
  else
    has_appdirs <- try_import env "appdirs" ;;
    if has_appdirs then
      size <- gets geonames_db_size ;;
      match size with
      | Some n => if (0 <? n)%Z then
                    works <- gets geoparser_works ;;
                    if works then ret (Some true) else ret None
                  else ret None
      | None => ret None
      end
    else
      ok <- check_call env (geonames_download_argv (sys_executable env)) ;;
      ret (Some ok).

Definition core_packages : list string :=
  ["jupyterlab"; "ipywidgets"; "notebook"; "pandas"; "matplotlib"; "plotly";
   "mapclassify"; "tqdm"; "praw"; "nltk"; "spacy"; "geoparser";
   "transformers"; "torch"; "scipy"; "cryptography"].

Definition essential_packages : list string := ["jupyterlab"].

(** Lines 258-262: the failed packages, in order. *)
Definition install_core_packages (packages essential : list string) : M (list string) :=
  fold_m packages (fun failed package =>
    if negb (mem package essential) then
      ok <- check_and_install_package package None ;;
      ret (if ok then failed else (failed ++ [package])%list)
    else ret failed) [].

(** [main]: returns the list of failed packages shown in the summary. *)
Definition main : M (list string) :=
  compatible <- check_python_version ;;
  if negb compatible then sys_exit 1%Z
  else
    _ <- upgrade_pip ;;
    _ <- for_each essential_packages (fun package =>
           _ <- check_and_install_package package None ;; ret tt) ;;
    failed_packages <- install_core_packages core_packages essential_packages ;;
    _ <- check_and_download_nltk_data ;;
    _ <- check_and_download_spacy_model ;;
    _ <- check_and_setup_geoparser ;;
    ret failed_packages.

End Script.
End InstallsRequired.

(** ** [install_vscode_extensions.py] *)
Module InstallVscodeExtensions.
Import Runtime.

Section Script.
Variable env : Env.

Definition vscode_commands : list string := ["code"; "code-insiders"].

(** [subprocess.run([cmd, "--version"], capture_output=True, text=True,
    timeout=10)] and [result.returncode == 0]; the exceptions the script
    catches around it ([TimeoutExpired], [CalledProcessError],
    [FileNotFoundError]) count as "not working", any other is not caught. *)
Definition probe (cmd : string) : M bool :=
  r <- subprocess_run env [cmd; "--version"] 10%Z ;;
  match r with
  | Completed 0 _ => ret true
  | OtherError => uncaught_exception
  | _ => ret false
  end.

Definition windows_paths (username : string) : list string :=
  ["C:\Program Files\Microsoft VS Code\bin\code.cmd";
   "C:\Program Files (x86)\Microsoft VS Code\bin\code.cmd";
   "C:\Users\" ++ username ++ "\AppData\Local\Programs\Microsoft VS Code\bin\code.cmd";
   "C:\Program Files\Microsoft VS Code\Code.exe";
   "C:\Program Files (x86)\Microsoft VS Code\Code.exe";
   "C:\Users\" ++ username ++ "\AppData\Local\Programs\Microsoft VS Code\Code.exe"].

Definition darwin_path : string :=
  "/Applications/Visual Studio Code.app/Contents/Resources/app/bin/code".

Definition check_vscode_installed : M (option string) :=
  found <- find_first vscode_commands (fun cmd =>
             on_path <- gets (which env cmd) ;;
             if on_path then
               works <- probe cmd ;;
               ret (if works then Some cmd else None)
             else ret None) ;;
  match found with
  | Some cmd => ret (Some cmd)
  | None =>
      match platform env with
      | Windows =>
          find_first (windows_paths (username env)) (fun path =>
            exists_ <- gets (path_exists env path) ;;
            if exists_ then
              works <- probe path ;;
              ret (if works then Some path else None)
            else ret None)
      | Darwin =>
          exists_ <- gets (path_exists env darwin_path) ;;
          if exists_ then
            works <- probe darwin_path ;;
            ret (if works then Some darwin_path else None)
          else ret None
      | Linux => ret None
      end
  end.

Definition install_argv (vscode_cmd extension_id : string) : list string :=
  [vscode_cmd; "--install-extension"; extension_id].

(** Every exception is caught ([except Exception]), so the function always
    returns a boolean. *)
Definition install_extension (vscode_cmd extension_id extension_name : string) : M bool :=
  r <- subprocess_run env (install_argv vscode_cmd extension_id) 60%Z ;;
  match r with
  | Completed 0 _ => ret true
  | _ => ret false
  end.

Definition extensions : list (string * string) :=
  [("ms-python.python", "Python");
   ("ms-python.pylint", "Pylint (Python Linting)");
   ("ms-toolsai.jupyter", "Jupyter");
   ("ms-toolsai.jupyter-keymap", "Jupyter Keymap");
   ("ms-toolsai.jupyter-renderers", "Jupyter Notebook Renderers");
   ("mechatroner.rainbow-csv", "Rainbow CSV");
   ("GrapeCity.gc-excelviewer", "Excel Viewer");
   ("ms-vscode.vscode-json", "JSON Language Features");
   ("redhat.vscode-yaml", "YAML Support");
   ("yzhang.markdown-all-in-one", "Markdown All in One");
   ("shd101wyy.markdown-preview-enhanced", "Markdown Preview Enhanced");
   ("ms-vscode.vscode-typescript-next", "TypeScript and JavaScript");
   ("ms-vscode-remote.vscode-remote-extensionpack", "Remote Development");
   ("streetsidesoftware.code-spell-checker", "Code Spell Checker")].

(** Lines 174-177: the names of the extensions that failed, in order. *)
Definition install_extensions (vscode_cmd : string) (exts : list (string * string))
    : M (list string) :=
  fold_m exts (fun failed '(extension_id, extension_name) =>
    ok <- install_extension vscode_cmd extension_id extension_name ;;
    ret (if ok then failed else (failed ++ [extension_name])%list)) [].

(** [if not vscode_cmd: sys.exit(1)]: [None] and the empty string are falsy. *)
Definition main : M (list string) :=
  vscode_cmd <- check_vscode_installed ;;
  match vscode_cmd with
  | None | Some EmptyString => sys_exit 1%Z
  | Some cmd => install_extensions cmd extensions
  end.

End Script.
End InstallVscodeExtensions.

(** ** [setup_python_environment.py] *)
Module SetupPythonEnvironment.
Import Runtime.

(** [d.update(u)] on dicts kept in insertion order: an existing key keeps
    its position and takes the new value, a new key is appended. *)
Fixpoint dict_set (d : list (string * json)) (k : string) (v : json)
    : list (string * json) :=
  match d with
  | [] => [(k, v)]
  | (k', v') :: d' => if String.eqb k k' then (k', v) :: d'
                      else (k', v') :: dict_set d' k v
  end.

Definition dict_update (d u : list (string * json)) : list (string * json) :=
  fold_left (fun d '(k, v) => dict_set d k v) u d.

(** [d.get(k)] *)
Fixpoint dict_get (d : list (string * json)) (k : string) : option json :=
  match d with
  | [] => None
  | (k', v) :: d' => if String.eqb k k' then Some v else dict_get d' k
  end.

(** The source of the script passed to [python -c]; the backquote stands
    for the double quote of the Python text. *)
Fixpoint backquote_to_quote (s : string) : string :=
  match s with
  | EmptyString => EmptyString
  | String c s' =>
      String (if Ascii.eqb c (Ascii.ascii_of_nat 96) then Ascii.ascii_of_nat 34 else c)
             (backquote_to_quote s')
  end.

Definition nltk_script : string := backquote_to_quote "
import nltk
import ssl

# Handle SSL certificate issues
try:
    _create_unverified_https_context = ssl._create_unverified_context
except AttributeError:
    pass
else:
    ssl._create_default_https_context = _create_unverified_https_context

# Download required NLTK data
packages = [`punkt`, `vader_lexicon`]
for package in packages:
    try:
        nltk.data.find(f`tokenizers/{package}` if package == `punkt` else package)
        print(f`✅ NLTK {package} already available`)
    except LookupError:
        print(f`📥 Downloading NLTK {package}...`)
        nltk.download(package, quiet=True)
        print(f`✅ NLTK {package} downloaded successfully`)
".

Section Script.
Variable env : Env.

Definition check_python_version : M bool :=
  ret (negb (version_lt (py_version env) (3, 8)%Z)).

Definition get_venv_python (venv_path : string) : string :=
  match platform env with
  | Windows => path_join env (path_join env venv_path "Scripts") "python.exe"
  | _ => path_join env (path_join env venv_path "bin") "python"
  end.

(** What [venv.create] leaves at the path: it does not clear an existing
    directory, so old entries stay next to the new layout. *)
Definition venv_create_result (st : PathState) : PathState :=
  match st with
  | IsDir old => IsDir (venv_layout env ++ old)
  | _ => IsDir (venv_layout env)
  end.

(** [venv.create(venv_path, with_pip=True)]; when it raises (no
    [ensurepip], say) it may already have written part of the environment:
    what is left is up to the environment. *)
Definition venv_create (venv_path : string) : M bool :=
  ok <- gets (venv_create_ok env) ;;
  if ok then
    _ <- record (EvVenvCreate venv_path)
                (fun w => set_venv_dir (venv_create_result (venv_dir w)) w) ;;
    ret true
  else
    _ <- emit env (EvVenvCreate venv_path) ;;
    ret false.

(** [shutil.rmtree(venv_path)]: on a plain file it raises
    [NotADirectoryError] before removing anything; on a directory it removes
    the tree, or raises part way through, leaving what the environment
    decides. *)
Definition rmtree (venv_path : string) : M bool :=
  st <- gets venv_dir ;;
  match st with
  | IsDir _ =>
      removable <- gets (rmtree_ok env) ;;
      if removable then
        _ <- record (EvRmtree venv_path) (set_venv_dir Absent) ;;
        ret true
      else
        _ <- emit env (EvRmtree venv_path) ;;
        ret false
  | _ =>
      _ <- record (EvRmtree venv_path) (fun w => w) ;;
      ret false
  end.

(** [os.path.exists], [import shutil] and [shutil.rmtree], then
    [venv.create]; every exception becomes [return False]. [shutil] is a
    module of the standard library, already loaded by [venv]: its import
    does not fail. *)
Definition create_virtual_environment (venv_path : string) : M bool :=
  st <- gets venv_dir ;;
  match st with
  | Absent => venv_create venv_path
  | _ =>
      _ <- record (EvImport "shutil") (fun w => w) ;;
      removed <- rmtree venv_path ;;
      if removed then venv_create venv_path else ret false
  end.

Definition pip_install_argv (python package_name : string) : list string :=
  [python; "-m"; "pip"; "install"; "--upgrade"; package_name].

Definition upgrade_pip_in_venv (venv_path : string) : M bool :=
  check_call env (pip_install_argv (get_venv_python venv_path) "pip").

Definition install_package_in_venv (venv_path package_name : string) : M bool :=
  check_call env (pip_install_argv (get_venv_python venv_path) package_name).

Definition setup_jupyter_kernel (venv_path : string) : M bool :=
  check_call env [get_venv_python venv_path; "-m"; "ipykernel"; "install";
                  "--user"; "--name"; "ds101";
                  "--display-name"; "Python (Digital Studies 101)"].

Definition vscode_settings (venv_python : string) : list (string * json) :=
  [("python.pythonPath", JStr venv_python);
   ("python.defaultInterpreterPath", JStr venv_python);
   ("jupyter.kernels.filter",
      JArr [JObj [("path", JStr venv_python); ("type", JStr "pythonEnvironment")]])].

(** Lines 163-164: [open(settings_file, 'w')] and [json.dump]. When either
    raises, the function returns [False]; the file may by then have been
    truncated or partly written, as the environment decides. *)
Definition write_settings (settings_file : string) (settings : list (string * json))
    : M bool :=
  ok <- gets (write_ok env settings_file) ;;
  if ok then
    _ <- record (EvWriteSettings settings_file)
                (set_settings_json (Contents (JObj settings))) ;;
    ret true
  else
    _ <- emit env (EvWriteSettings settings_file) ;;
    ret false.

(** [os.makedirs] (line 135) is outside the [try]: when it raises, the
    exception is not caught. A file that cannot be read or does not parse
    ([Unparsable]), or whose top-level value is not an object (no [update]
    method), raises inside the [try]: [return False], nothing written. *)
Definition create_vscode_settings (venv_path workspace_path : string) : M bool :=
  let vscode_dir := path_join env workspace_path ".vscode" in
  let settings_file := path_join env vscode_dir "settings.json" in
  made <- gets (makedirs_ok env vscode_dir) ;;
  _ <- record (EvMakedirs vscode_dir) (fun w => w) ;;
  if negb made then uncaught_exception
  else
    let venv_python := abspath env (get_venv_python venv_path) in
    let settings := vscode_settings venv_python in
    existing <- gets settings_json ;;
    match existing with
    | NoFile => write_settings settings_file settings
    | Contents (JObj existing_settings) =>
        write_settings settings_file (dict_update existing_settings settings)
    | Contents _ => ret false
    | Unparsable => ret false
    end.

Definition check_and_download_nltk_data (venv_path : string) : M bool :=
  check_call env [get_venv_python venv_path; "-c"; nltk_script].

Definition spacy_download_argv (python model_name : string) : list string :=
  [python; "-m"; "spacy"; "download"; model_name].

Definition spacy_models_required : list string := ["en_core_web_sm"; "en_core_web_md"].

Definition check_and_download_spacy_model (venv_path : string) : M unit :=
  for_each spacy_models_required (fun model_name =>
    _ <- check_call env (spacy_download_argv (get_venv_python venv_path) model_name) ;;
    ret tt).

Definition setup_geoparser (venv_path : string) : M bool :=
  check_call env [get_venv_python venv_path; "-m"; "geoparser"; "download"; "geonames"].

Definition packages : list string :=
  ["ipykernel"; "jupyterlab"; "jupyter"; "ipywidgets"; "notebook";
   "pandas"; "numpy"; "matplotlib"; "seaborn"; "plotly"; "mapclassify";
   "tqdm"; "praw"; "nltk"; "spacy"; "geoparser";
   "transformers"; "torch"; "scipy"; "scikit-learn";
   "cryptography"; "requests"].

Definition essential_packages : list string := ["ipykernel"; "jupyterlab"; "jupyter"].

(** Lines 326-329. *)
Definition install_essential_packages (venv_path : string) : M (list string) :=
  fold_m essential_packages (fun failed package =>
    ok <- install_package_in_venv venv_path package ;;
    ret (if ok then failed else (failed ++ [package])%list)) [].

(** Lines 337-340. *)
Definition install_remaining_packages (venv_path : string) (failed : list string)
    : M (list string) :=
  fold_m packages (fun failed package =>
    if negb (mem package essential_packages) then
      ok <- install_package_in_venv venv_path package ;;
      ret (if ok then failed else (failed ++ [package])%list)
    else ret failed) failed.

(** Lines 320-340, with the abort of lines 332-334. *)
Definition install_packages (venv_path : string) : M (list string) :=
  failed_packages <- install_essential_packages venv_path ;;
  if existsb (fun pkg => mem pkg failed_packages) essential_packages
  then sys_exit 1%Z
  else install_remaining_packages venv_path failed_packages.

Definition venv_name : string := "ds101_env".

Definition main : M (list string) :=
  compatible <- check_python_version ;;
  if negb compatible then sys_exit 1%Z
  else
    let venv_path := path_join env (script_dir env) venv_name in
    created <- create_virtual_environment venv_path ;;
    if negb created then sys_exit 1%Z
    else
      _ <- upgrade_pip_in_venv venv_path ;;
      failed_packages <- install_packages venv_path ;;
      kernel <- setup_jupyter_kernel venv_path ;;
      if negb kernel then sys_exit 1%Z
      else
        _ <- create_vscode_settings venv_path (script_dir env) ;;
        _ <- check_and_download_nltk_data venv_path ;;
        _ <- check_and_download_spacy_model venv_path ;;
        _ <- setup_geoparser venv_path ;;
        ret failed_packages.

End Script.
End SetupPythonEnvironment.

(** ** Concrete machines used to evaluate the scripts *)
Module Scenarios.
Import Runtime.

Definition posix_join (a b : string) : string := a ++ "/" ++ b.

(** A Linux machine with Python 3.11 on which every command succeeds and
    changes nothing. *)
Definition env_ok : Env :=
  mkEnv "/usr/bin/python3" (3, 11)%Z Linux posix_join (fun p => p) "/home/student/ds101"
        (fun _ _ => 0%Z) (fun _ _ => Completed 0 "") (fun _ _ => true) (fun _ _ => false)
        "student" (fun _ w => w) (fun _ => true) (fun _ => true)
        ["bin"; "lib"; "pyvenv.cfg"]
        (fun _ _ => false) (fun _ _ => None) (fun _ _ => true) (fun _ _ => true).

Definition world_empty : World := mkWorld [] [] [] None false Absent NoFile.

Definition st_empty : St := mkSt world_empty [].

(** A machine on which the course's Python packages, NLTK data and spaCy
    models are all present. *)
Definition world_provisioned : World :=
  mkWorld ("nltk" :: "spacy" :: "geoparser" :: "appdirs" :: "pandas" ::
           "jupyterlab" :: "ipywidgets" :: "notebook" :: "matplotlib" ::
           "plotly" :: "mapclassify" :: "tqdm" :: "praw" :: "transformers" ::
           "torch" :: "scipy" :: "cryptography" :: [])
          ["tokenizers/punkt"; "vader_lexicon"]
          ["en_core_web_sm"; "en_core_web_md"; "en_core_web_trf"]
          (Some 1000%Z) true Absent NoFile.

Definition st_provisioned : St := mkSt world_provisioned [].

(** A machine where an older environment directory and a settings file
    with user settings are already present. *)
Definition world_previous_setup : World :=
  mkWorld [] [] [] None false (IsDir ["bin"; "lib"; "stale-package"])
          (Contents (JObj [("editor.fontSize", JNum 14);
                           ("python.pythonPath", JStr "/usr/bin/python3");
                           ("files.autoSave", JStr "afterDelay")])).

Definition st_previous_setup : St := mkSt world_previous_setup [].

(** Python 3.7, and a [code] on the search path whose version probe times
    out. *)
Definition env_old_broken : Env :=
  mkEnv "/usr/bin/python3" (3, 7)%Z Linux posix_join (fun p => p) "/home/student/ds101"
        (fun _ _ => 0%Z) (fun _ _ => TimeoutExpired) (fun _ _ => true) (fun _ _ => false)
        "student" (fun _ w => w) (fun _ => true) (fun _ => true)
        ["bin"; "lib"; "pyvenv.cfg"]
        (fun _ _ => false) (fun _ _ => None) (fun _ _ => true) (fun _ _ => true).

(** Like [env_ok], except that pip fails to install [ipykernel]. *)
Definition env_no_ipykernel : Env :=
  mkEnv "/usr/bin/python3" (3, 11)%Z Linux posix_join (fun p => p) "/home/student/ds101"
        (fun args _ => if mem "pip" args && mem "ipykernel" args then 1%Z else 0%Z)
        (fun _ _ => Completed 0 "") (fun _ _ => true) (fun _ _ => false)
        "student" (fun _ w => w) (fun _ => true) (fun _ => true)
        ["bin"; "lib"; "pyvenv.cfg"]
        (fun _ _ => false) (fun _ _ => None) (fun _ _ => true) (fun _ _ => true).

(** [env_ok] where [shutil.rmtree] fails on the existing environment. *)
Definition env_locked_venv : Env :=
  mkEnv "/usr/bin/python3" (3, 11)%Z Linux posix_join (fun p => p) "/home/student/ds101"
        (fun _ _ => 0%Z) (fun _ _ => Completed 0 "") (fun _ _ => true) (fun _ _ => false)
        "student" (fun _ w => w) (fun _ => false) (fun _ => true)
        ["bin"; "lib"; "pyvenv.cfg"]
        (fun _ _ => false) (fun _ _ => None) (fun _ _ => true) (fun _ _ => true).

(** [env_ok] where [venv.create] raises. *)
Definition env_no_venv : Env :=
  mkEnv "/usr/bin/python3" (3, 11)%Z Linux posix_join (fun p => p) "/home/student/ds101"
        (fun _ _ => 0%Z) (fun _ _ => Completed 0 "") (fun _ _ => true) (fun _ _ => false)
        "student" (fun _ w => w) (fun _ => true) (fun _ => false)
        ["bin"; "lib"; "pyvenv.cfg"]
        (fun _ _ => false) (fun _ _ => None) (fun _ _ => true) (fun _ _ => true).

(** A plain file where the environment directory should be. *)
Definition world_file_at_venv : World := mkWorld [] [] [] None false IsFile NoFile.

(** A settings file that does not parse. *)
Definition world_broken_settings : World := mkWorld [] [] [] None false Absent Unparsable.

(** No VS Code command on the search path. *)
Definition env_no_code : Env :=
  mkEnv "/usr/bin/python3" (3, 11)%Z Linux posix_join (fun p => p) "/home/student/ds101"
        (fun _ _ => 0%Z) (fun _ _ => Completed 0 "") (fun _ _ => false) (fun _ _ => false)
        "student" (fun _ w => w) (fun _ => true) (fun _ => true)
        ["bin"; "lib"; "pyvenv.cfg"]
        (fun _ _ => false) (fun _ _ => None) (fun _ _ => true) (fun _ _ => true).

(** A Mac with VS Code in [/Applications] but not on the search path. *)
Definition env_mac_app_only : Env :=
  mkEnv "/usr/local/bin/python3" (3, 12)%Z Darwin posix_join (fun p => p) "/Users/student/ds101"
        (fun _ _ => 0%Z) (fun _ _ => Completed 0 "") (fun _ _ => false) (fun _ _ => true)
        "student" (fun _ w => w) (fun _ => true) (fun _ => true)
        ["bin"; "lib"; "pyvenv.cfg"]
        (fun _ _ => false) (fun _ _ => None) (fun _ _ => true) (fun _ _ => true).

(** Every [check_call] exits with status 1 (no network, say). *)
Definition env_pip_fails : Env :=
  mkEnv "/usr/bin/python3" (3, 11)%Z Linux posix_join (fun p => p) "/home/student/ds101"
        (fun _ _ => 1%Z) (fun _ _ => Completed 0 "") (fun _ _ => true) (fun _ _ => false)
        "student" (fun _ w => w) (fun _ => true) (fun _ => true)
        ["bin"; "lib"; "pyvenv.cfg"]
        (fun _ _ => false) (fun _ _ => None) (fun _ _ => true) (fun _ _ => true).

(** The Pylint extension fails to install, every other command succeeds. *)
Definition env_pylint_fails : Env :=
  mkEnv "/usr/bin/python3" (3, 11)%Z Linux posix_join (fun p => p) "/home/student/ds101"
        (fun _ _ => 0%Z)
        (fun c _ => if mem "ms-python.pylint" (argv c) then Completed 1 "" else Completed 0 "")
        (fun _ _ => true) (fun _ _ => false)
        "student" (fun _ w => w) (fun _ => true) (fun _ => true)
        ["bin"; "lib"; "pyvenv.cfg"]
        (fun _ _ => false) (fun _ _ => None) (fun _ _ => true) (fun _ _ => true).

(** [env_ok] where [import torch] raises [OSError] (a broken shared
    library, say) instead of [ImportError]. *)
Definition env_torch_broken : Env :=
  mkEnv "/usr/bin/python3" (3, 11)%Z Linux posix_join (fun p => p) "/home/student/ds101"
        (fun _ _ => 0%Z) (fun _ _ => Completed 0 "") (fun _ _ => true) (fun _ _ => false)
        "student" (fun _ w => w) (fun _ => true) (fun _ => true)
        ["bin"; "lib"; "pyvenv.cfg"]
        (fun n _ => String.eqb n "torch") (fun _ _ => None) (fun _ _ => true) (fun _ _ => true).

(** [env_ok] where the settings file cannot be opened for writing. *)
Definition env_readonly_settings : Env :=
  mkEnv "/usr/bin/python3" (3, 11)%Z Linux posix_join (fun p => p) "/home/student/ds101"
        (fun _ _ => 0%Z) (fun _ _ => Completed 0 "") (fun _ _ => true) (fun _ _ => false)
        "student" (fun _ w => w) (fun _ => true) (fun _ => true)
        ["bin"; "lib"; "pyvenv.cfg"]
        (fun _ _ => false) (fun _ _ => None) (fun _ _ => true) (fun _ _ => false).

(** [geoparser] importable, [appdirs] not. *)
Definition world_geoparser_only : World :=
  mkWorld ["geoparser"] [] [] None false Absent NoFile.

End Scenarios.

(** * Properties *)
Module Props.
Import Runtime.
Local Open Scope list_scope.

(** [m] only appends events satisfying [P] to the log. *)
Definition adds {A} (P : Event -> Prop) (m : M A) : Prop :=
  forall s, exists es, log (snd (m s)) = log s ++ es /\ Forall P es.

(** [m] never reaches [sys.exit]. *)
Definition never_exits {A} (m : M A) : Prop :=
  forall s, exists a, fst (m s) = Ret a.

Definition is_version_probe (e : Event) : Prop :=
  exists p, e = EvRun (mkCmd [p; "--version"] (Some 10%Z) true).

Section Closure.
Variable P : Event -> Prop.

Lemma adds_ret {A} (a : A) : adds P (ret a).
Proof. intros s. exists []. now rewrite app_nil_r. Qed.

Lemma adds_gets {A} (f : World -> A) : adds P (gets f).
Proof. intros s. exists []. now rewrite app_nil_r. Qed.

Lemma adds_sys_exit {A} c : adds P (@sys_exit A c).
Proof. intros s. exists []. now rewrite app_nil_r. Qed.

Lemma adds_uncaught_exception {A} : adds P (@uncaught_exception A).
Proof. apply adds_sys_exit. Qed.

Lemma adds_subprocess_run env args t :
  P (EvRun (mkCmd args (Some t) true)) -> adds P (subprocess_run env args t).
Proof. intros H s. exists [EvRun (mkCmd args (Some t) true)]. auto. Qed.

Lemma adds_bind {A B} (m : M A) (k : A -> M B) :
  adds P m -> (forall a, adds P (k a)) -> adds P (bind m k).
Proof.
  intros Hm Hk s. unfold bind. specialize (Hm s).
  destruct (m s) as [[a|c] s'] eqn:E; simpl in *; destruct Hm as [es1 [H1 F1]].
  - destruct (Hk a s') as [es2 [H2 F2]]. exists (es1 ++ es2).
    rewrite H2, H1, app_assoc. split; [reflexivity|]. now apply Forall_app.
  - now exists es1.
Qed.

Lemma adds_find_first {A B} (l : list A) (body : A -> M (option B)) :
  (forall x, adds P (body x)) -> adds P (find_first l body).
Proof.
  intros Hb. induction l as [|x l IH]; simpl.
  - apply adds_ret.
  - apply adds_bind; [apply Hb|]. intros [b|]; [apply adds_ret|apply IH].
Qed.

Lemma never_exits_ret {A} (a : A) : never_exits (ret a).
Proof. intros s. now exists a. Qed.

Lemma never_exits_gets {A} (f : World -> A) : never_exits (gets f).
Proof. intros s. now eexists. Qed.

Lemma never_exits_record e f : never_exits (record e f).
Proof. intros s. now exists tt. Qed.

Lemma never_exits_emit env e : never_exits (emit env e).
Proof. intros s. now exists tt. Qed.

Lemma never_exits_check_call env args : never_exits (check_call env args).
Proof. intros s. now eexists. Qed.

Lemma never_exits_subprocess_run env args t : never_exits (subprocess_run env args t).
Proof. intros s. now eexists. Qed.

Lemma never_exits_bind {A B} (m : M A) (k : A -> M B) :
  never_exits m -> (forall a, never_exits (k a)) -> never_exits (bind m k).
Proof.
  intros Hm Hk s. unfold bind. destruct (Hm s) as [a Ha].
  destruct (m s) as [r s'] eqn:E; simpl in Ha; subst r. apply Hk.
Qed.

Lemma never_exits_for_each {A} (l : list A) body :
  (forall x, never_exits (body x)) -> never_exits (for_each l body).
Proof.
  intros Hb. induction l as [|x l IH]; simpl.
  - apply never_exits_ret.
  - apply never_exits_bind; auto.
Qed.

Lemma never_exits_fold_m {A B} (l : list A) (body : B -> A -> M B) acc :
  (forall b x, never_exits (body b x)) -> never_exits (fold_m l body acc).
Proof.
  intros Hb. revert acc. induction l as [|x l IH]; intros acc; simpl.
  - apply never_exits_ret.
  - apply never_exits_bind; auto.
Qed.

Lemma never_exits_find_first {A B} (l : list A) (body : A -> M (option B)) :
  (forall x, never_exits (body x)) -> never_exits (find_first l body).
Proof.
  intros Hb. induction l as [|x l IH]; simpl.
  - apply never_exits_ret.
  - apply never_exits_bind; [apply Hb|]. intros [b|]; [apply never_exits_ret|apply IH].
Qed.

End Closure.

Create HintDb monad_closure.
#[local] Hint Resolve adds_ret adds_gets adds_sys_exit adds_uncaught_exception never_exits_ret never_exits_gets
  never_exits_record never_exits_emit never_exits_check_call
  never_exits_subprocess_run : monad_closure.

Ltac closure :=
  repeat match goal with
  | |- forall _, _ => intros
  | |- adds _ (bind _ _) => apply adds_bind
  | |- adds _ (find_first _ _) => apply adds_find_first
  | |- never_exits (bind _ _) => apply never_exits_bind
  | |- never_exits (for_each _ _) => apply never_exits_for_each
  | |- never_exits (fold_m _ _ _) => apply never_exits_fold_m
  | |- never_exits (find_first _ _) => apply never_exits_find_first
  | |- _ (if ?b then _ else _) => destruct b
  | |- _ (match ?x with _ => _ end) => destruct x
  | |- _ => solve [eauto with monad_closure]
  end.

(** Unfold the monad and the loop combinators. *)
Ltac run_m :=
  cbv [bind ret gets record emit check_call subprocess_run try_import
       for_each fold_m find_first sys_exit uncaught_exception] in *; cbn -[mem] in *.

Section Closure_events.
Variable P : Event -> Prop.

Lemma adds_mono {A} (Q : Event -> Prop) (m : M A) :
  (forall e, Q e -> P e) -> adds Q m -> adds P m.
Proof.
  intros HQ Hm s. destruct (Hm s) as [es [Hl Hf]]. exists es. split; [exact Hl|].
  eapply Forall_impl; [exact HQ|exact Hf].
Qed.

Lemma adds_record e f : P e -> adds P (record e f).
Proof. intros H s. exists [e]. auto. Qed.

Lemma adds_emit env e : P e -> adds P (emit env e).
Proof. intros H s. exists [e]. auto. Qed.

Lemma adds_check_call env args :
  P (EvRun (mkCmd args None false)) -> adds P (check_call env args).
Proof. intros H s. exists [EvRun (mkCmd args None false)]. auto. Qed.

Lemma adds_for_each {A} (l : list A) body :
  (forall x, adds P (body x)) -> adds P (for_each l body).
Proof.
  intros Hb. induction l as [|x l IH]; simpl; [apply adds_ret|].
  apply adds_bind; auto.
Qed.

Lemma adds_fold_m {A B} (l : list A) (body : B -> A -> M B) acc :
  (forall b x, adds P (body b x)) -> adds P (fold_m l body acc).
Proof.
  intros Hb. revert acc. induction l as [|x l IH]; intros acc; simpl; [apply adds_ret|].
  apply adds_bind; auto.
Qed.

End Closure_events.

(** Split an [adds] goal along the program; [tac] proves that each event
    the program appends satisfies the predicate. *)
Ltac adds_events tac :=
  repeat match goal with
  | |- forall _, _ => intros
  | |- adds _ (bind _ _) => apply adds_bind
  | |- adds _ (find_first _ _) => apply adds_find_first
  | |- adds _ (for_each _ _) => apply adds_for_each
  | |- adds _ (fold_m _ _ _) => apply adds_fold_m
  | |- adds _ (record _ _) => apply adds_record; tac
  | |- adds _ (emit _ _) => apply adds_emit; tac
  | |- adds _ (check_call _ _) => apply adds_check_call; tac
  | |- adds _ (subprocess_run _ _ _) => apply adds_subprocess_run; tac
  | |- adds _ (ret _) => apply adds_ret
  | |- adds _ (gets _) => apply adds_gets
  | |- adds _ (sys_exit _) => apply adds_sys_exit
  | |- adds _ uncaught_exception => apply adds_uncaught_exception
  | |- adds _ (if ?b then _ else _) => destruct b
  | |- adds _ (match ?x with _ => _ end) => destruct x
  end.

(** The claim's own reading of the import name: cut the package name at the
    first place where [">="] or ["<"] begins. *)
Fixpoint strip_version_specifier (s : string) : string :=
  match s with
  | EmptyString => EmptyString
  | String c s' =>
      if String.prefix ">=" s || String.prefix "<" s then EmptyString
      else String c (strip_version_specifier s')
  end.

Lemma prefix_single (c d : Ascii.ascii) (s : string) :
  String.prefix (String c EmptyString) (String d s) = Ascii.eqb c d.
Proof.
  assert (Hp : String.prefix EmptyString s = true) by (destruct s; reflexivity).
  simpl. rewrite Hp. destruct (Ascii.ascii_dec c d) as [->|Hne].
  - now rewrite Ascii.eqb_refl.
  - symmetry. now apply Ascii.eqb_neq.
Qed.

Lemma default_import_name_spec (s : string) :
  InstallsRequired.default_import_name s = strip_version_specifier s.
Proof.
  unfold InstallsRequired.default_import_name.
  induction s as [|c s IH]; [reflexivity|].
  change (split_head "<" (if String.prefix ">=" (String c s) then EmptyString
                          else String c (split_head ">=" s)) =
          if String.prefix ">=" (String c s) || String.prefix "<" (String c s)
          then EmptyString else String c (strip_version_specifier s)).
  destruct (String.prefix ">=" (String c s)); [reflexivity|].
  change ((if String.prefix "<" (String c (split_head ">=" s)) then EmptyString
           else String c (split_head "<" (split_head ">=" s))) =
          if String.prefix "<" (String c s)
          then EmptyString else String c (strip_version_specifier s)).
  rewrite !prefix_single.
  destruct (Ascii.eqb _ c); [reflexivity|]. now rewrite IH.
Qed.

(** One call of [check_and_install_package], unfolded: the import attempt,
    and the pip command only when the import fails. *)
Lemma check_and_install_package_eq env package_name import_name s :
  InstallsRequired.check_and_install_package env package_name import_name s =
  let n := match import_name with
           | None => InstallsRequired.default_import_name package_name
           | Some n => n
           end in
  if String.eqb n "" then (Exit 1%Z, mkSt (world s) (log s ++ [EvImport n]))
  else if mem n (modules (world s))
  then (Ret true, mkSt (world s) (log s ++ [EvImport n]))
  else if import_crash env n (world s)
  then (Exit 1%Z, mkSt (world s) (log s ++ [EvImport n]))
  else
    let args := InstallsRequired.pip_install_argv (sys_executable env) package_name in
    (Ret (call_rc env args (world s) =? 0)%Z,
     mkSt (effect env (EvRun (mkCmd args None false)) (world s))
          ((log s ++ [EvImport n]) ++ [EvRun (mkCmd args None false)])).
Proof.
  unfold InstallsRequired.check_and_install_package, try_import, bind, record,
    gets, ret, check_call, uncaught_exception, sys_exit; simpl.
  destruct (String.eqb _ _); [reflexivity|].
  destruct (mem _ _); [reflexivity|].
  destruct (import_crash _ _ _); reflexivity.
Qed.

(** One call of [install_extension], unfolded. *)
Lemma install_extension_eq env vscode_cmd extension_id extension_name s :
  InstallVscodeExtensions.install_extension env vscode_cmd extension_id extension_name s =
  let c := mkCmd (InstallVscodeExtensions.install_argv vscode_cmd extension_id) (Some 60%Z) true in
  (Ret (match run_res env c (world s) with Completed 0 _ => true | _ => false end),
   mkSt (effect env (EvRun c) (world s)) (log s ++ [EvRun c])).
Proof.
  unfold InstallVscodeExtensions.install_extension, subprocess_run, bind, ret; simpl.
  destruct (run_res _ _ _) as [[|p|p] e| | |]; reflexivity.
Qed.

(** Every [sys.exit] [m] reaches uses status [c0]. *)
Definition exits_with {A} (c0 : Z) (m : M A) : Prop :=
  forall s c s', m s = (Exit c, s') -> c = c0.

Section Exit_codes.
Variable c0 : Z.

Lemma exits_with_ret {A} (a : A) : exits_with c0 (ret a).
Proof. intros s c s' H. discriminate H. Qed.

Lemma exits_with_gets {A} (f : World -> A) : exits_with c0 (gets f).
Proof. intros s c s' H. discriminate H. Qed.

Lemma exits_with_record e f : exits_with c0 (record e f).
Proof. intros s c s' H. discriminate H. Qed.

Lemma exits_with_emit env e : exits_with c0 (emit env e).
Proof. intros s c s' H. discriminate H. Qed.

Lemma exits_with_check_call env args : exits_with c0 (check_call env args).
Proof. intros s c s' H. discriminate H. Qed.

Lemma exits_with_subprocess_run env args t : exits_with c0 (subprocess_run env args t).
Proof. intros s c s' H. discriminate H. Qed.

Lemma exits_with_sys_exit {A} : exits_with c0 (@sys_exit A c0).
Proof. intros s c s' H. now injection H as <- _. Qed.

Lemma exits_with_bind {A B} (m : M A) (k : A -> M B) :
  exits_with c0 m -> (forall a, exits_with c0 (k a)) -> exits_with c0 (bind m k).
Proof.
  intros Hm Hk s c s' H. unfold bind in H.
  destruct (m s) as [[a|c1] s1] eqn:E.
  - exact (Hk a s1 c s' H).
  - injection H as <- _. exact (Hm s c1 s1 E).
Qed.

Lemma exits_with_for_each {A} (l : list A) body :
  (forall x, exits_with c0 (body x)) -> exits_with c0 (for_each l body).
Proof.
  intros Hb. induction l as [|x l IH]; simpl; [apply exits_with_ret|].
  apply exits_with_bind; auto.
Qed.

Lemma exits_with_fold_m {A B} (l : list A) (body : B -> A -> M B) acc :
  (forall b x, exits_with c0 (body b x)) -> exits_with c0 (fold_m l body acc).
Proof.
  intros Hb. revert acc. induction l as [|x l IH]; intros acc; simpl; [apply exits_with_ret|].
  apply exits_with_bind; auto.
Qed.

Lemma exits_with_find_first {A B} (l : list A) (body : A -> M (option B)) :
  (forall x, exits_with c0 (body x)) -> exits_with c0 (find_first l body).
Proof.
  intros Hb. induction l as [|x l IH]; simpl; [apply exits_with_ret|].
  apply exits_with_bind; [apply Hb|]. intros [b|]; [apply exits_with_ret|apply IH].
Qed.

End Exit_codes.

Lemma exits_with_uncaught_exception {A} : exits_with 1%Z (@uncaught_exception A).
Proof. apply exits_with_sys_exit. Qed.

(** Split an [exits_with] goal along the program. *)
Ltac exit_codes :=
  repeat match goal with
  | |- forall _, _ => intros
  | |- exits_with _ (bind _ _) => apply exits_with_bind
  | |- exits_with _ (for_each _ _) => apply exits_with_for_each
  | |- exits_with _ (fold_m _ _ _) => apply exits_with_fold_m
  | |- exits_with _ (find_first _ _) => apply exits_with_find_first
  | |- exits_with _ (ret _) => apply exits_with_ret
  | |- exits_with _ (gets _) => apply exits_with_gets
  | |- exits_with _ (record _ _) => apply exits_with_record
  | |- exits_with _ (emit _ _) => apply exits_with_emit
  | |- exits_with _ (check_call _ _) => apply exits_with_check_call
  | |- exits_with _ (subprocess_run _ _ _) => apply exits_with_subprocess_run
  | |- exits_with _ (sys_exit _) => apply exits_with_sys_exit
  | |- exits_with _ uncaught_exception => apply exits_with_uncaught_exception
  | |- exits_with _ (if ?b then _ else _) => destruct b
  | |- exits_with _ (match ?x with _ => _ end) => destruct x
  end.

Lemma never_exits_try_import env name :
  name <> "" -> (forall w, import_crash env name w = false) ->
  never_exits (try_import env name).
Proof.
  intros Hne Hc s. unfold try_import; run_m.
  apply String.eqb_neq in Hne. rewrite Hne.
  destruct (mem name _); [eexists; reflexivity|]. rewrite Hc. eexists; reflexivity.
Qed.

Lemma never_exits_check_and_install_package env package_name :
  InstallsRequired.default_import_name package_name <> "" ->
  (forall n w, import_crash env n w = false) ->
  never_exits (InstallsRequired.check_and_install_package env package_name None).
Proof.
  intros Hne Hc s. rewrite check_and_install_package_eq. cbv zeta.
  apply String.eqb_neq in Hne. rewrite Hne.
  destruct (mem _ _); [eexists; reflexivity|]. rewrite Hc. eexists; reflexivity.
Qed.

Lemma never_exits_spacy_model_loop env models :
  (forall m w, spacy_load_exc env m w <> Some RaisesOther) ->
  never_exits (InstallsRequired.spacy_model_loop env models).
Proof.
  intros Hs. induction models as [|m models IH]; intros s; simpl; [eexists; reflexivity|].
  cbv [bind gets]. destruct (spacy_load env m (world s)) as [| |[|]] eqn:E.
  - apply IH.
  - cbv [check_call]. apply IH.
  - eexists; reflexivity.
  - exfalso. unfold spacy_load in E. destruct (mem m _); [discriminate E|].
    destruct (spacy_load_exc env m (world s)) eqn:E2; [|discriminate E].
    injection E as ->. exact (Hs _ _ E2).
Qed.

Example default_import_name_examples :
  InstallsRequired.default_import_name "pandas>=1.5" = "pandas" /\
  InstallsRequired.default_import_name "numpy<2" = "numpy" /\
  InstallsRequired.default_import_name "scipy<=1.11" = "scipy" /\
  InstallsRequired.default_import_name "torch==2.1" = "torch==2.1" /\
  InstallsRequired.default_import_name "tqdm" = "tqdm".
Proof. repeat split; reflexivity. Qed.

(** C9: with no explicit import name, the name tried by [__import__] is the
    package name cut at the first [">="] or ["<"]: [default_import_name]
    is that truncation, and the call's first logged action is the import of
    exactly that string, followed by no other import. *)
Theorem C9_import_name_strips_version_specifier env package_name s :
  InstallsRequired.default_import_name package_name = strip_version_specifier package_name /\
  exists rest,
    log (snd (InstallsRequired.check_and_install_package env package_name None s)) =
      log s ++ EvImport (strip_version_specifier package_name) :: rest /\
    Forall (fun e => forall n, e <> EvImport n) rest.
Proof.
  rewrite <- default_import_name_spec. split; [reflexivity|].
  rewrite check_and_install_package_eq; cbv zeta.
  destruct (String.eqb _ _); [exists []; split; [reflexivity|constructor]|].
  destruct (mem _ _); [exists []; split; [reflexivity|constructor]|].
  destruct (import_crash _ _ _); simpl; [exists []; split; [reflexivity|constructor]|].
  eexists. split; [now rewrite <- app_assoc|].
  repeat constructor; discriminate.
Qed.

Lemma nltk_data_available_no_download env s :
  mem "nltk" (modules (world s)) = true ->
  forallb (fun '(_, path) => mem path (nltk_data (world s)))
          InstallsRequired.nltk_data_packages = true ->
  InstallsRequired.check_and_download_nltk_data env s =
  (Ret tt, mkSt (world s) (log s ++ [EvImport "nltk"])).
Proof.
  intros Hn Hp. destruct s as [w l]; simpl in *.
  unfold InstallsRequired.check_and_download_nltk_data; run_m.
  apply andb_prop in Hp as [H1 Hp]. apply andb_prop in Hp as [H2 _].
  rewrite Hn; cbn -[mem]. rewrite H1; cbn -[mem]. now rewrite H2.
Qed.

Lemma spacy_models_available_no_download env s :
  mem "spacy" (modules (world s)) = true ->
  forallb (fun m => mem m (spacy_models (world s)))
          InstallsRequired.spacy_models_required = true ->
  InstallsRequired.check_and_download_spacy_model env s =
  (Ret tt, mkSt (world s) (log s ++ [EvImport "spacy"])).
Proof.
  intros Hn Hp. destruct s as [w l]; simpl in *.
  unfold InstallsRequired.check_and_download_spacy_model; run_m. unfold spacy_load.
  apply andb_prop in Hp as [H1 Hp]. apply andb_prop in Hp as [H2 Hp].
  apply andb_prop in Hp as [H3 _].
  rewrite Hn; cbn -[mem]. rewrite H1; cbn -[mem]. rewrite H2; cbn -[mem].
  now rewrite H3.
Qed.

Ltac nltk_finish :=
  rewrite <- ?app_assoc; eexists; split; [reflexivity|];
  simpl; intuition discriminate.

Lemma spacy_model_loop_keeps_loadable env m models s :
  (forall args w m', mem m' (spacy_models w) = true ->
     mem m' (spacy_models (effect env (EvRun (mkCmd args None false)) w)) = true) ->
  mem m (spacy_models (world s)) = true ->
  exists es,
    log (snd (InstallsRequired.spacy_model_loop env models s)) = log s ++ es /\
    ~ In (EvRun (mkCmd (InstallsRequired.spacy_download_argv (sys_executable env) m)
                       None false)) es.
Proof.
  intros Hkeep. revert s. induction models as [|m' models IH]; intros s Hm; simpl.
  - exists []. split; [now rewrite app_nil_r|intros []].
  - unfold bind at 1, gets. cbn beta iota.
    destruct (spacy_load env m' (world s)) as [| |[|]] eqn:Hl.
    + now apply IH.
    + unfold spacy_load in Hl.
      destruct (mem m' (spacy_models (world s))) eqn:Hm'; [discriminate|].
      cbv [bind check_call]. cbn beta iota zeta.
      destruct (IH (mkSt (effect env (EvRun (mkCmd (InstallsRequired.spacy_download_argv
                   (sys_executable env) m') None false)) (world s))
                   (log s ++ [EvRun (mkCmd (InstallsRequired.spacy_download_argv
                   (sys_executable env) m') None false)])) (Hkeep _ _ _ Hm))
        as [es [Hes Hni]].
      eexists. split; [rewrite Hes; simpl; now rewrite <- app_assoc|].
      intros [Heq|Hin]; [|exact (Hni Hin)].
      injection Heq as Heq. subst m'. congruence.
    + exists []. split; [now rewrite app_nil_r|intros []].
    + exists []. split; [now rewrite app_nil_r|intros []].
Qed.

(** C6 (counterexample): the result of [check_and_install_package] does
    not tell a package that was already importable from one pip has just
    installed: both calls return [True], and [install_core_packages] leaves
    the failed list empty in both cases. *)
Lemma C6_no_already_satisfied_outcome :
  fst (InstallsRequired.check_and_install_package Scenarios.env_ok "pandas" None
         Scenarios.st_provisioned) = Ret true /\
  log (snd (InstallsRequired.check_and_install_package Scenarios.env_ok "pandas" None
              Scenarios.st_provisioned)) = [EvImport "pandas"] /\
  fst (InstallsRequired.check_and_install_package Scenarios.env_ok "pandas" None
         Scenarios.st_empty) = Ret true /\
  log (snd (InstallsRequired.check_and_install_package Scenarios.env_ok "pandas" None
              Scenarios.st_empty)) =
    [EvImport "pandas";
     EvRun (mkCmd ["/usr/bin/python3"; "-m"; "pip"; "install"; "--upgrade"; "pandas"]
                  None false)] /\
  fst (InstallsRequired.install_core_packages Scenarios.env_ok ["pandas"] []
         Scenarios.st_provisioned) = Ret [] /\
  fst (InstallsRequired.install_core_packages Scenarios.env_ok ["pandas"] []
         Scenarios.st_empty) = Ret [].
Proof. repeat split; reflexivity. Qed.

(** C6 (amended): in [installs_required.py] a capability whose detection
    succeeds gets no acquisition, capability by capability, and its result
    is the same as after a successful acquisition. A package whose import
    name (nonempty) imports: the only action is the import and the call
    returns [True]. An NLTK resource found when it is looked up: no
    [nltk.download] of it, provided the downloads of other resources do not
    remove it. A spaCy model that loads: no [spacy download] of it, provided
    the downloads of other models do not remove it. The geoparser step with
    [geoparser] and [appdirs] importable, a nonempty database and a working
    geoparser: only the two imports, and the result [True]. *)
Theorem C6_satisfied_capability_not_acquired env s :
  (forall package_name import_name,
     let n := match import_name with
              | None => InstallsRequired.default_import_name package_name
              | Some n => n
              end in
     n <> "" ->
     mem n (modules (world s)) = true ->
     InstallsRequired.check_and_install_package env package_name import_name s =
       (Ret true, mkSt (world s) (log s ++ [EvImport n]))) /\
  ((forall q w p, mem p (nltk_data w) = true ->
                  mem p (nltk_data (effect env (EvNltkDownload q) w)) = true) ->
   forall package path,
     In (package, path) InstallsRequired.nltk_data_packages ->
     mem path (nltk_data (world s)) = true ->
     exists es,
       log (snd (InstallsRequired.check_and_download_nltk_data env s)) = log s ++ es /\
       ~ In (EvNltkDownload package) es) /\
  ((forall args w m, mem m (spacy_models w) = true ->
     mem m (spacy_models (effect env (EvRun (mkCmd args None false)) w)) = true) ->
   forall m,
     mem m (spacy_models (world s)) = true ->
     exists es,
       log (snd (InstallsRequired.check_and_download_spacy_model env s)) = log s ++ es /\
       ~ In (EvRun (mkCmd (InstallsRequired.spacy_download_argv (sys_executable env) m)
                          None false)) es) /\
  (forall n,
     mem "geoparser" (modules (world s)) = true ->
     mem "appdirs" (modules (world s)) = true ->
     geonames_db_size (world s) = Some n -> (0 < n)%Z ->
     geoparser_works (world s) = true ->
     InstallsRequired.check_and_setup_geoparser env s =
       (Ret (Some true),
        mkSt (world s) (log s ++ [EvImport "geoparser"; EvImport "appdirs"]))).
Proof.
  destruct s as [w l]. split; [|split; [|split]].
  - intros package_name import_name n Hne Hn.
    rewrite check_and_install_package_eq; cbv zeta. unfold n in *.
    apply String.eqb_neq in Hne. cbn [world log] in *. now rewrite Hne, Hn.
  - intros Hkeep package path Hin Hp. cbn [world log] in *.
    unfold InstallsRequired.check_and_download_nltk_data; run_m.
    destruct Hin as [Hin|[Hin|[]]]; injection Hin as <- <-;
      destruct (mem "nltk" (modules w)); cbn -[mem];
      [| destruct (import_crash env "nltk" w); nltk_finish
       | | destruct (import_crash env "nltk" w); nltk_finish].
    + rewrite Hp; cbn -[mem].
      destruct (mem "vader_lexicon" (nltk_data w)); cbn -[mem]; nltk_finish.
    + destruct (mem "tokenizers/punkt" (nltk_data w)); cbn -[mem].
      * rewrite Hp; cbn -[mem]. nltk_finish.
      * rewrite (Hkeep "punkt" w "vader_lexicon" Hp); cbn -[mem]. nltk_finish.
  - intros Hkeep m Hm.
    unfold InstallsRequired.check_and_download_spacy_model, try_import.
    cbv [bind record gets ret uncaught_exception sys_exit];
      cbn -[mem InstallsRequired.spacy_model_loop].
    destruct (mem "spacy" (modules w)); cbn -[mem InstallsRequired.spacy_model_loop].
    + destruct (spacy_model_loop_keeps_loadable env m InstallsRequired.spacy_models_required
                  (mkSt w (l ++ [EvImport "spacy"])) Hkeep Hm) as [es [Hes Hni]].
      exists (EvImport "spacy" :: es). split.
      * rewrite Hes. simpl. now rewrite <- app_assoc.
      * intros [H|H]; [discriminate H|exact (Hni H)].
    + destruct (import_crash env "spacy" w); cbn -[mem];
        (exists [EvImport "spacy"]; split; [reflexivity|intros [H|[]]; discriminate H]).
  - intros n Hg Ha Hsize Hpos Hworks. simpl in *.
    unfold InstallsRequired.check_and_setup_geoparser; run_m.
    rewrite Hg; cbn -[mem]. rewrite Ha; cbn -[mem]. rewrite Hsize.
    apply Z.ltb_lt in Hpos. rewrite Hpos; cbn -[mem]. rewrite Hworks.
    now rewrite <- app_assoc.
Qed.

Lemma C6_satisfied_capability_not_acquired_witness :
  InstallsRequired.check_and_install_package Scenarios.env_ok "pandas>=1.5" None
    Scenarios.st_provisioned =
    (Ret true, mkSt Scenarios.world_provisioned [EvImport "pandas"]) /\
  (exists es,
     log (snd (InstallsRequired.check_and_download_nltk_data Scenarios.env_ok
                 Scenarios.st_provisioned)) = es /\
     ~ In (EvNltkDownload "vader_lexicon") es) /\
  (exists es,
     log (snd (InstallsRequired.check_and_download_spacy_model Scenarios.env_ok
                 Scenarios.st_provisioned)) = es /\
     ~ In (EvRun (mkCmd ["/usr/bin/python3"; "-m"; "spacy"; "download"; "en_core_web_md"]
                        None false)) es) /\
  InstallsRequired.check_and_setup_geoparser Scenarios.env_ok Scenarios.st_provisioned =
    (Ret (Some true),
     mkSt Scenarios.world_provisioned [EvImport "geoparser"; EvImport "appdirs"]).
Proof.
  destruct (C6_satisfied_capability_not_acquired Scenarios.env_ok Scenarios.st_provisioned)
    as [H1 [H2 [H3 H4]]].
  split; [|split; [|split]].
  - exact (H1 "pandas>=1.5" None ltac:(discriminate) eq_refl).
  - exact (H2 (fun _ _ _ H => H) "vader_lexicon" "vader_lexicon"
              ltac:(simpl; auto) eq_refl).
  - exact (H3 (fun _ _ _ H => H) "en_core_web_md" eq_refl).
  - exact (H4 1000%Z eq_refl eq_refl eq_refl ltac:(reflexivity) eq_refl).
Defined.

(** C2 (counterexample): pip exits with status zero but the package is
    still not importable afterwards; [check_and_install_package] does not
    import again and reports success. *)
Lemma C2_success_without_verification :
  InstallsRequired.check_and_install_package Scenarios.env_ok "pandas" None Scenarios.st_empty =
    (Ret true,
     mkSt Scenarios.world_empty
          [EvImport "pandas";
           EvRun (mkCmd ["/usr/bin/python3"; "-m"; "pip"; "install"; "--upgrade"; "pandas"]
                        None false)]) /\
  mem "pandas" (modules Scenarios.world_empty) = false.
Proof. split; reflexivity. Qed.

(** C2 (amended): a zero exit status of the acquisition command is taken
    as success without running detection again: when the import of a
    nonempty import name raises [ImportError], [check_and_install_package]
    returns [True] after the import attempt and the pip command, whatever
    the machine looks like afterwards, and [install_extension] returns
    [True] after the single install command. *)
Theorem C2_zero_exit_trusted env package_name import_name s :
  let n := match import_name with
           | None => InstallsRequired.default_import_name package_name
           | Some n => n
           end in
  let args := InstallsRequired.pip_install_argv (sys_executable env) package_name in
  n <> "" ->
  mem n (modules (world s)) = false ->
  import_crash env n (world s) = false ->
  call_rc env args (world s) = 0%Z ->
  InstallsRequired.check_and_install_package env package_name import_name s =
    (Ret true, mkSt (effect env (EvRun (mkCmd args None false)) (world s))
                    (log s ++ [EvImport n; EvRun (mkCmd args None false)])) /\
  (forall vscode_cmd extension_id extension_name stderr,
     let c := mkCmd (InstallVscodeExtensions.install_argv vscode_cmd extension_id)
                    (Some 60%Z) true in
     run_res env c (world s) = Completed 0 stderr ->
     InstallVscodeExtensions.install_extension env vscode_cmd extension_id extension_name s =
       (Ret true, mkSt (effect env (EvRun c) (world s)) (log s ++ [EvRun c]))).
Proof.
  intros n args Hne Hn Hc Hrc. split.
  - rewrite check_and_install_package_eq; cbv zeta. unfold n, args in *.
    apply String.eqb_neq in Hne. rewrite Hne, Hn, Hc, Hrc. simpl.
    now rewrite <- app_assoc.
  - intros vscode_cmd extension_id extension_name stderr c Hr.
    rewrite install_extension_eq; cbv zeta. fold c. now rewrite Hr.
Qed.

Lemma C2_zero_exit_trusted_witness :
  InstallsRequired.check_and_install_package Scenarios.env_ok "pandas" None Scenarios.st_empty =
    (Ret true,
     mkSt Scenarios.world_empty
          [EvImport "pandas";
           EvRun (mkCmd ["/usr/bin/python3"; "-m"; "pip"; "install"; "--upgrade"; "pandas"]
                        None false)]) /\
  InstallVscodeExtensions.install_extension Scenarios.env_ok "code" "ms-python.python" "Python"
    Scenarios.st_empty =
    (Ret true,
     mkSt Scenarios.world_empty
          [EvRun (mkCmd ["code"; "--install-extension"; "ms-python.python"] (Some 60%Z) true)]).
Proof.
  destruct (C2_zero_exit_trusted Scenarios.env_ok "pandas" None Scenarios.st_empty
              ltac:(discriminate) eq_refl eq_refl eq_refl) as [H1 H2].
  split.
  - exact H1.
  - exact (H2 "code" "ms-python.python" "Python" "" eq_refl).
Defined.

(** C5 (counterexample): the pip command started for a package that does
    not import has no timeout and does not capture its output. *)
Lemma C5_pip_install_without_timeout :
  log (snd (InstallsRequired.check_and_install_package Scenarios.env_ok "pandas" None
              Scenarios.st_empty)) =
    [EvImport "pandas";
     EvRun {| argv := ["/usr/bin/python3"; "-m"; "pip"; "install"; "--upgrade"; "pandas"];
              timeout := None; capture_output := false |}].
Proof. reflexivity. Qed.

(** A process started with no timeout and no output capture. *)
Definition unbounded_run (e : Event) : Prop :=
  forall c, e = EvRun c -> timeout c = None /\ capture_output c = false.

(** A process started with captured output: a version probe with a
    10 second timeout, or an extension install with a 60 second one. *)
Definition vscode_timed_run (e : Event) : Prop :=
  forall c, e = EvRun c ->
    capture_output c = true /\
    ((timeout c = Some 10%Z /\ exists p, argv c = [p; "--version"]) \/
     (timeout c = Some 60%Z /\
      exists vscode_cmd extension_id,
        argv c = InstallVscodeExtensions.install_argv vscode_cmd extension_id)).

(** C5 (amended): for a package whose (nonempty) import name raises
    [ImportError], [check_and_install_package] starts
    [pip install --upgrade] through [check_call], with no timeout and no
    output capture, and only sees whether the exit status is zero;
    [install_extension] starts its command with a 60 second timeout and
    captured output, and succeeds exactly on a completed process with exit
    status zero. Every process [installs_required.py] and
    [setup_python_environment.py] start has no timeout and no capture; in
    [install_vscode_extensions.py] every process has captured output, and
    the ones with a 60 second timeout are exactly the extension installs
    (the version probes have 10 seconds). *)
Theorem C5_acquisition_invocation env package_name import_name s
    vscode_cmd extension_id extension_name :
  let n := match import_name with
           | None => InstallsRequired.default_import_name package_name
           | Some n => n
           end in
  let args := InstallsRequired.pip_install_argv (sys_executable env) package_name in
  let c := mkCmd (InstallVscodeExtensions.install_argv vscode_cmd extension_id)
                 (Some 60%Z) true in
  (n <> "" ->
   mem n (modules (world s)) = false ->
   import_crash env n (world s) = false ->
   InstallsRequired.check_and_install_package env package_name import_name s =
     (Ret (call_rc env args (world s) =? 0)%Z,
      mkSt (effect env (EvRun (mkCmd args None false)) (world s))
           (log s ++ [EvImport n; EvRun {| argv := args; timeout := None;
                                           capture_output := false |}]))) /\
  InstallVscodeExtensions.install_extension env vscode_cmd extension_id extension_name s =
    (Ret (match run_res env c (world s) with Completed 0 _ => true | _ => false end),
     mkSt (effect env (EvRun c) (world s))
          (log s ++ [EvRun {| argv := InstallVscodeExtensions.install_argv vscode_cmd extension_id;
                              timeout := Some 60%Z; capture_output := true |}])) /\
  adds unbounded_run (InstallsRequired.main env) /\
  adds unbounded_run (SetupPythonEnvironment.main env) /\
  adds vscode_timed_run (InstallVscodeExtensions.main env).
Proof.
  intros n args c. split; [|split; [|split; [|split]]].
  - intros Hne Hn Hc. rewrite check_and_install_package_eq; cbv zeta. unfold n, args in *.
    apply String.eqb_neq in Hne. rewrite Hne, Hn, Hc.
    simpl. now rewrite <- app_assoc.
  - now rewrite install_extension_eq.
  - unfold InstallsRequired.main, InstallsRequired.check_python_version,
      InstallsRequired.upgrade_pip, InstallsRequired.install_core_packages,
      InstallsRequired.check_and_download_nltk_data,
      InstallsRequired.check_and_download_spacy_model,
      InstallsRequired.spacy_models_required,
      InstallsRequired.check_and_setup_geoparser, InstallsRequired.check_and_install_package,
      try_import.
    cbn [InstallsRequired.spacy_model_loop]. cbv beta iota zeta.
    adds_events ltac:(let c0 := fresh in let Hc0 := fresh in
                      intros c0 Hc0; first [discriminate Hc0 | injection Hc0 as <-; split; reflexivity]).
  - unfold SetupPythonEnvironment.main, SetupPythonEnvironment.check_python_version,
      SetupPythonEnvironment.create_virtual_environment, SetupPythonEnvironment.rmtree,
      SetupPythonEnvironment.venv_create,
      SetupPythonEnvironment.upgrade_pip_in_venv, SetupPythonEnvironment.install_packages,
      SetupPythonEnvironment.install_essential_packages,
      SetupPythonEnvironment.install_remaining_packages,
      SetupPythonEnvironment.install_package_in_venv, SetupPythonEnvironment.setup_jupyter_kernel,
      SetupPythonEnvironment.create_vscode_settings, SetupPythonEnvironment.write_settings,
      SetupPythonEnvironment.check_and_download_nltk_data,
      SetupPythonEnvironment.check_and_download_spacy_model,
      SetupPythonEnvironment.setup_geoparser.
    cbv beta iota zeta.
    adds_events ltac:(let c0 := fresh in let Hc0 := fresh in
                      intros c0 Hc0; first [discriminate Hc0 | injection Hc0 as <-; split; reflexivity]).
  - unfold InstallVscodeExtensions.main, InstallVscodeExtensions.check_vscode_installed,
      InstallVscodeExtensions.install_extensions, InstallVscodeExtensions.install_extension,
      InstallVscodeExtensions.probe.
    cbv beta iota zeta.
    adds_events ltac:(let c0 := fresh in let Hc0 := fresh in
                      intros c0 Hc0; injection Hc0 as <-; cbn; split; [reflexivity|];
                      first [left; split; [reflexivity|eexists; reflexivity]
                            |right; split; [reflexivity|do 2 eexists; reflexivity]]).
Qed.

Lemma C5_acquisition_invocation_witness :
  InstallsRequired.check_and_install_package Scenarios.env_ok "numpy<2" None Scenarios.st_empty =
    (Ret true,
     mkSt Scenarios.world_empty
          [EvImport "numpy";
           EvRun {| argv := ["/usr/bin/python3"; "-m"; "pip"; "install"; "--upgrade"; "numpy<2"];
                    timeout := None; capture_output := false |}]).
Proof.
  exact (proj1 (C5_acquisition_invocation Scenarios.env_ok "numpy<2" None Scenarios.st_empty
                  "code" "ms-python.python" "Python") ltac:(discriminate) eq_refl eq_refl).
Defined.

Lemma create_virtual_environment_eq env venv_path s :
  SetupPythonEnvironment.create_virtual_environment env venv_path s =
  match venv_dir (world s) with
  | Absent =>
      if venv_create_ok env (world s)
      then (Ret true, mkSt (set_venv_dir (IsDir (venv_layout env)) (world s))
                           (log s ++ [EvVenvCreate venv_path]))
      else (Ret false, mkSt (effect env (EvVenvCreate venv_path) (world s))
                            (log s ++ [EvVenvCreate venv_path]))
  | IsFile => (Ret false, mkSt (world s) (log s ++ [EvImport "shutil"; EvRmtree venv_path]))
  | IsDir _ =>
      if rmtree_ok env (world s) then
        if venv_create_ok env (set_venv_dir Absent (world s))
        then (Ret true, mkSt (set_venv_dir (IsDir (venv_layout env))
                                           (set_venv_dir Absent (world s)))
                             (log s ++ [EvImport "shutil"; EvRmtree venv_path;
                                        EvVenvCreate venv_path]))
        else (Ret false, mkSt (effect env (EvVenvCreate venv_path) (set_venv_dir Absent (world s)))
                              (log s ++ [EvImport "shutil"; EvRmtree venv_path;
                                         EvVenvCreate venv_path]))
      else (Ret false, mkSt (effect env (EvRmtree venv_path) (world s))
                            (log s ++ [EvImport "shutil"; EvRmtree venv_path]))
  end.
Proof.
  destruct s as [w l].
  unfold SetupPythonEnvironment.create_virtual_environment, SetupPythonEnvironment.rmtree,
    SetupPythonEnvironment.venv_create; run_m.
  destruct (venv_dir w) eqn:Hv; cbn; rewrite ?Hv; cbn.
  - destruct (venv_create_ok env w); cbn; rewrite ?Hv; reflexivity.
  - now rewrite <- ?app_assoc.
  - destruct (rmtree_ok env w); cbn; [|now rewrite <- ?app_assoc].
    destruct (venv_create_ok _ _); cbn; now rewrite <- ?app_assoc.
Qed.

(** C10: a successful [create_virtual_environment] always leaves a freshly
    created environment (the layout [venv.create] writes, nothing else) at
    the path, and when a directory was there before, the log shows
    [shutil] imported, the directory removed recursively and then the new
    environment created. *)
Theorem C10_existing_venv_replaced env venv_path s s' :
  SetupPythonEnvironment.create_virtual_environment env venv_path s = (Ret true, s') ->
  venv_dir (world s') = IsDir (venv_layout env) /\
  (forall old, venv_dir (world s) = IsDir old ->
               log s' = log s ++ [EvImport "shutil"; EvRmtree venv_path;
                                  EvVenvCreate venv_path]).
Proof.
  rewrite create_virtual_environment_eq.
  destruct (venv_dir (world s)) as [| |old0] eqn:Hv.
  - destruct (venv_create_ok env (world s)); intros H; inversion H; subst; clear H.
    split; [reflexivity|]. intros old Hold. congruence.
  - intros H; discriminate H.
  - destruct (rmtree_ok env (world s)); [|intros H; discriminate H].
    destruct (venv_create_ok env _); intros H; inversion H; subst; clear H.
    split; [reflexivity|]. intros old _. reflexivity.
Qed.

Lemma C10_existing_venv_replaced_witness :
  venv_dir (world (snd (SetupPythonEnvironment.create_virtual_environment Scenarios.env_ok
                          "/home/student/ds101/ds101_env" Scenarios.st_previous_setup))) =
    IsDir ["bin"; "lib"; "pyvenv.cfg"] /\
  log (snd (SetupPythonEnvironment.create_virtual_environment Scenarios.env_ok
              "/home/student/ds101/ds101_env" Scenarios.st_previous_setup)) =
    [EvImport "shutil"; EvRmtree "/home/student/ds101/ds101_env";
     EvVenvCreate "/home/student/ds101/ds101_env"].
Proof.
  destruct (C10_existing_venv_replaced Scenarios.env_ok "/home/student/ds101/ds101_env"
              Scenarios.st_previous_setup
              (snd (SetupPythonEnvironment.create_virtual_environment Scenarios.env_ok
                      "/home/student/ds101/ds101_env" Scenarios.st_previous_setup))
              eq_refl) as [H1 H2].
  split; [exact H1|].
  exact (H2 ["bin"; "lib"; "stale-package"] eq_refl).
Defined.

Lemma dict_get_set_same d k v : SetupPythonEnvironment.dict_get (SetupPythonEnvironment.dict_set d k v) k = Some v.
Proof.
  induction d as [|[k' v'] d IH]; simpl.
  - now rewrite String.eqb_refl.
  - destruct (String.eqb k k') eqn:E; simpl.
    + now rewrite E.
    + now rewrite E.
Qed.

Lemma dict_get_set_other d k v k0 :
  k0 <> k ->
  SetupPythonEnvironment.dict_get (SetupPythonEnvironment.dict_set d k v) k0 =
  SetupPythonEnvironment.dict_get d k0.
Proof.
  intros Hne. induction d as [|[k' v'] d IH]; simpl.
  - apply String.eqb_neq in Hne. now rewrite Hne.
  - destruct (String.eqb k k') eqn:E; simpl.
    + apply String.eqb_eq in E; subst k'. apply String.eqb_neq in Hne. now rewrite Hne.
    + destruct (String.eqb k0 k'); [reflexivity|exact IH].
Qed.



Lemma check_vscode_installed_probes env :
  adds is_version_probe (InstallVscodeExtensions.check_vscode_installed env).
Proof.
  unfold InstallVscodeExtensions.check_vscode_installed, InstallVscodeExtensions.probe.
  closure; apply adds_subprocess_run; eexists; reflexivity.
Qed.

(** C7: a failed prerequisite check ends the run with exit status 1 before
    any acquisition: in [installs_required.py] and
    [setup_python_environment.py] an interpreter older than 3.8 exits with
    the state untouched; in [install_vscode_extensions.py], when no working
    VS Code command is found, the run exits and the only commands started
    were [--version] probes. *)
Theorem C7_prerequisite_failure_aborts_before_acquisition env s :
  (version_lt (py_version env) (3, 8)%Z = true ->
   InstallsRequired.main env s = (Exit 1%Z, s) /\
   SetupPythonEnvironment.main env s = (Exit 1%Z, s)) /\
  (forall s1,
   InstallVscodeExtensions.check_vscode_installed env s = (Ret None, s1) ->
   InstallVscodeExtensions.main env s = (Exit 1%Z, s1) /\
   exists probes, log s1 = log s ++ probes /\ Forall is_version_probe probes).
Proof.
  split.
  - intros H. unfold InstallsRequired.main, SetupPythonEnvironment.main,
      InstallsRequired.check_python_version, SetupPythonEnvironment.check_python_version,
      bind, ret, sys_exit.
    rewrite H. split; reflexivity.
  - intros s1 H. split.
    + unfold InstallVscodeExtensions.main, bind at 1. rewrite H. reflexivity.
    + destruct (check_vscode_installed_probes env s) as [es [Hl Hf]].
      rewrite H in Hl. simpl in Hl. now exists es.
Qed.

Lemma C7_prerequisite_failure_aborts_before_acquisition_witness :
  InstallsRequired.main Scenarios.env_old_broken Scenarios.st_empty =
    (Exit 1%Z, Scenarios.st_empty) /\
  InstallVscodeExtensions.main Scenarios.env_old_broken Scenarios.st_empty =
    (Exit 1%Z, mkSt Scenarios.world_empty
                    [EvRun (mkCmd ["code"; "--version"] (Some 10%Z) true);
                     EvRun (mkCmd ["code-insiders"; "--version"] (Some 10%Z) true)]).
Proof.
  destruct (C7_prerequisite_failure_aborts_before_acquisition Scenarios.env_old_broken
              Scenarios.st_empty) as [H1 H2].
  split.
  - exact (proj1 (H1 eq_refl)).
  - exact (proj1 (H2 _ eq_refl)).
Defined.

Definition imports_of (es : list Event) : list string :=
  flat_map (fun e => match e with EvImport n => [n] | _ => [] end) es.

Definition extension_install_event (vscode_cmd : string) (ext : string * string) : Event :=
  EvRun (mkCmd (InstallVscodeExtensions.install_argv vscode_cmd (fst ext)) (Some 60%Z) true).

(** A loop whose every iteration returns and appends events whose
    projection is [f x] returns, and appends events whose projection is the
    concatenation of the [f x], in list order. *)
Lemma fold_m_proj {A B} (proj : list Event -> list string) (l : list A)
    (body : B -> A -> M B) (f : A -> list string) acc s :
  proj [] = [] ->
  (forall es1 es2, proj (es1 ++ es2) = proj es1 ++ proj es2) ->
  (forall b x s, In x l ->
     exists b' w' es, body b x s = (Ret b', mkSt w' (log s ++ es)) /\ proj es = f x) ->
  exists b' w' es, fold_m l body acc s = (Ret b', mkSt w' (log s ++ es)) /\
                   proj es = flat_map f l.
Proof.
  intros Hnil Happ. revert acc s. induction l as [|x l IH]; intros acc s Hb; simpl.
  - exists acc, (world s), []. split.
    + destruct s; simpl. now rewrite app_nil_r.
    + exact Hnil.
  - destruct (Hb acc x s (or_introl eq_refl)) as [b1 [w1 [es1 [H1 P1]]]].
    unfold bind. rewrite H1.
    destruct (IH b1 (mkSt w1 (log s ++ es1))) as [b2 [w2 [es2 [H2 P2]]]];
      [intros b y s0 Hy; apply Hb; now right|].
    rewrite H2. exists b2, w2, (es1 ++ es2). split.
    + simpl. now rewrite app_assoc.
    + rewrite Happ, P1, P2. reflexivity.
Qed.

(** [install_extensions] returns and starts exactly one install command per
    extension, in the order of the list. *)
Lemma install_extensions_log env vscode_cmd exts s :
  exists failed s',
    InstallVscodeExtensions.install_extensions env vscode_cmd exts s = (Ret failed, s') /\
    log s' = log s ++ map (extension_install_event vscode_cmd) exts.
Proof.
  unfold InstallVscodeExtensions.install_extensions.
  assert (Hgen : forall acc s,
    exists failed s',
      fold_m exts (fun failed '(extension_id, extension_name) =>
        ok <- InstallVscodeExtensions.install_extension env vscode_cmd extension_id extension_name ;;
        ret (if ok then failed else (failed ++ [extension_name])%list)) acc s = (Ret failed, s') /\
      log s' = log s ++ map (extension_install_event vscode_cmd) exts).
  { induction exts as [|[i n] exts IH]; intros acc s0; simpl.
    - exists acc, s0. split; [reflexivity|]. now rewrite app_nil_r.
    - unfold bind at 1. unfold bind at 1. rewrite install_extension_eq. cbv zeta.
      unfold ret at 1.
      match goal with
      | |- context [fold_m exts ?body ?acc' ?st] =>
          destruct (IH acc' st) as [failed [s' [H1 H2]]]
      end.
      rewrite H1. exists failed, s'. split; [reflexivity|].
      rewrite H2. simpl. now rewrite <- app_assoc. }
  apply Hgen.
Qed.

Lemma imports_of_app es1 es2 : imports_of (es1 ++ es2) = imports_of es1 ++ imports_of es2.
Proof. apply flat_map_app. Qed.

Lemma flat_map_filter_map (ess : list string) (l : list string) :
  flat_map (fun p => if negb (mem p ess)
                     then [InstallsRequired.default_import_name p] else []) l =
  map InstallsRequired.default_import_name (filter (fun p => negb (mem p ess)) l).
Proof.
  induction l as [|p l IH]; simpl; [reflexivity|].
  destruct (negb (mem p ess)); simpl; now rewrite IH.
Qed.

(** The core-package loop of [installs_required.py] returns and tries the
    import of every non-essential package, in the order of the list, when
    no import raises anything but [ImportError]. *)
Lemma install_core_packages_imports env packages essential s :
  Forall (fun p => InstallsRequired.default_import_name p <> "") packages ->
  (forall n w, import_crash env n w = false) ->
  exists failed s' es,
    InstallsRequired.install_core_packages env packages essential s = (Ret failed, s') /\
    log s' = log s ++ es /\
    imports_of es = map InstallsRequired.default_import_name
                        (filter (fun p => negb (mem p essential)) packages).
Proof.
  intros Hne Hc.
  unfold InstallsRequired.install_core_packages.
  rewrite <- flat_map_filter_map.
  destruct (fold_m_proj (B := list string) imports_of packages
              (fun failed package =>
                 if negb (mem package essential) then
                   ok <- InstallsRequired.check_and_install_package env package None ;;
                   ret (if ok then failed else (failed ++ [package])%list)
                 else ret failed)
              (fun p => if negb (mem p essential)
                        then [InstallsRequired.default_import_name p] else [])
              [] s) as [b [w [es [H1 H2]]]];
    [reflexivity|apply imports_of_app| |].
  2:{ exists b, (mkSt w (log s ++ es)), es. split; [exact H1|]. split; [reflexivity|exact H2]. }
  intros b x s0 Hx. destruct (negb (mem x essential)) eqn:E.
  - cbv [bind]. rewrite check_and_install_package_eq. cbv zeta.
    rewrite Forall_forall in Hne. pose proof (proj2 (String.eqb_neq _ _) (Hne x Hx)) as Hx'.
    rewrite Hx', Hc.
    destruct (mem (InstallsRequired.default_import_name x) (modules (world s0))).
    + eexists _, _, [EvImport _]. split; [reflexivity|]. reflexivity.
    + eexists _, _, [EvImport _; EvRun _]. split.
      * unfold ret. simpl. now rewrite <- app_assoc.
      * reflexivity.
  - exists b, (world s0), []. destruct s0; simpl. split; [now rewrite app_nil_r|reflexivity].
Qed.

Lemma fold_failed_from_list (l : list string) (m : string -> M bool) acc s failed s1 :
  fold_m l (fun failed package =>
              ok <- m package ;;
              ret (if ok then failed else (failed ++ [package])%list)) acc s = (Ret failed, s1) ->
  forall p, In p failed -> In p acc \/ In p l.
Proof.
  revert acc s. induction l as [|x l IH]; intros acc s H p Hp; simpl in H.
  - unfold ret in H. injection H as <- _. now left.
  - cbv [bind ret] in H. destruct (m x s) as [[ok|c] s'].
    + destruct (IH _ _ H p Hp) as [Hin|Hin].
      * destruct ok; [now left|].
        apply in_app_or in Hin as [Hin|[<-|[]]]; [now left|right; now left].
      * right; now right.
    + discriminate H.
Qed.

Lemma install_essential_packages_failed env venv_path s failed s1 :
  SetupPythonEnvironment.install_essential_packages env venv_path s = (Ret failed, s1) ->
  Forall (fun p => In p SetupPythonEnvironment.essential_packages) failed.
Proof.
  intros H. apply Forall_forall. intros p Hp.
  destruct (fold_failed_from_list _ _ _ _ _ _ H p Hp) as [[]|Hin]. exact Hin.
Qed.

(** Lines 332-334 of [setup_python_environment.py]: a failure among the
    essential packages stops the run before any other package. *)
Lemma install_packages_essential_failure env venv_path s failed s1 :
  SetupPythonEnvironment.install_essential_packages env venv_path s = (Ret failed, s1) ->
  failed <> [] ->
  SetupPythonEnvironment.install_packages env venv_path s = (Exit 1%Z, s1).
Proof.
  intros H Hne.
  pose proof (install_essential_packages_failed _ _ _ _ _ H) as Hf.
  unfold SetupPythonEnvironment.install_packages, bind at 1. rewrite H.
  destruct failed as [|x f]; [congruence|].
  inversion Hf as [|? ? Hx _]; subst.
  assert (Hex : existsb (fun pkg => mem pkg (x :: f))
                        SetupPythonEnvironment.essential_packages = true).
  { apply existsb_exists. exists x. split; [exact Hx|].
    simpl. now rewrite String.eqb_refl. }
  now rewrite Hex.
Qed.

(** C1 (counterexample): on a Python 3.11 machine where pip cannot install
    [ipykernel], [setup_python_environment.py] exits with status 1 after the
    three essential packages: none of the other 19 packages is attempted.
    On a machine where [import torch] raises [OSError],
    [installs_required.py] exits with status 1 at [torch]: [scipy] and
    [cryptography] are never looked at. *)
Lemma C1_run_aborted_before_list_end :
  let python := "/home/student/ds101/ds101_env/bin/python" in
  fst (SetupPythonEnvironment.main Scenarios.env_no_ipykernel Scenarios.st_empty) = Exit 1%Z /\
  log (snd (SetupPythonEnvironment.main Scenarios.env_no_ipykernel Scenarios.st_empty)) =
    [EvVenvCreate "/home/student/ds101/ds101_env";
     EvRun (mkCmd [python; "-m"; "pip"; "install"; "--upgrade"; "pip"] None false);
     EvRun (mkCmd [python; "-m"; "pip"; "install"; "--upgrade"; "ipykernel"] None false);
     EvRun (mkCmd [python; "-m"; "pip"; "install"; "--upgrade"; "jupyterlab"] None false);
     EvRun (mkCmd [python; "-m"; "pip"; "install"; "--upgrade"; "jupyter"] None false)] /\
  fst (InstallsRequired.main Scenarios.env_torch_broken Scenarios.st_empty) = Exit 1%Z /\
  fst (InstallsRequired.install_core_packages Scenarios.env_torch_broken
         InstallsRequired.core_packages InstallsRequired.essential_packages
         Scenarios.st_empty) = Exit 1%Z /\
  imports_of (log (snd (InstallsRequired.install_core_packages Scenarios.env_torch_broken
                          InstallsRequired.core_packages InstallsRequired.essential_packages
                          Scenarios.st_empty))) =
    ["ipywidgets"; "notebook"; "pandas"; "matplotlib"; "plotly"; "mapclassify"; "tqdm";
     "praw"; "nltk"; "spacy"; "geoparser"; "transformers"; "torch"].
Proof. repeat split; vm_compute; reflexivity. Qed.

(** C1 (amended): the extension loop of [install_vscode_extensions.py]
    always completes, starting exactly one install command per extension in
    list order; the package loop of [installs_required.py] completes and
    tries the import of every listed package in list order, provided no
    import name is empty and no import raises anything but [ImportError]
    (otherwise the uncaught exception ends the run with status 1); in
    [setup_python_environment.py] a failure among the essential packages
    ends the run with exit status 1 before any further package. *)
Theorem C1_full_list_processed env vscode_cmd exts packages essential venv_path s :
  (exists failed s',
     InstallVscodeExtensions.install_extensions env vscode_cmd exts s = (Ret failed, s') /\
     log s' = log s ++ map (extension_install_event vscode_cmd) exts) /\
  (Forall (fun p => InstallsRequired.default_import_name p <> "") packages ->
   (forall n w, import_crash env n w = false) ->
   exists failed s' es,
     InstallsRequired.install_core_packages env packages essential s = (Ret failed, s') /\
     log s' = log s ++ es /\
     imports_of es = map InstallsRequired.default_import_name
                         (filter (fun p => negb (mem p essential)) packages)) /\
  (forall failed s1,
     SetupPythonEnvironment.install_essential_packages env venv_path s = (Ret failed, s1) ->
     failed <> [] ->
     SetupPythonEnvironment.install_packages env venv_path s = (Exit 1%Z, s1)).
Proof.
  split; [apply install_extensions_log|].
  split; [apply install_core_packages_imports|].
  apply install_packages_essential_failure.
Qed.

Lemma C1_full_list_processed_witness :
  SetupPythonEnvironment.install_packages Scenarios.env_no_ipykernel "/srv/venv"
    Scenarios.st_empty =
  (Exit 1%Z, snd (SetupPythonEnvironment.install_essential_packages
                    Scenarios.env_no_ipykernel "/srv/venv" Scenarios.st_empty)) /\
  exists failed s' es,
    InstallsRequired.install_core_packages Scenarios.env_ok InstallsRequired.core_packages
      InstallsRequired.essential_packages Scenarios.st_empty = (Ret failed, s') /\
    log s' = [] ++ es /\
    imports_of es = map InstallsRequired.default_import_name
                        (filter (fun p => negb (mem p InstallsRequired.essential_packages))
                                InstallsRequired.core_packages).
Proof.
  destruct (C1_full_list_processed Scenarios.env_no_ipykernel "code" [] [] []
              "/srv/venv" Scenarios.st_empty) as [_ [_ H]].
  destruct (C1_full_list_processed Scenarios.env_ok "code" [] InstallsRequired.core_packages
              InstallsRequired.essential_packages "/srv/venv" Scenarios.st_empty)
    as [_ [H2 _]].
  split.
  - apply (H ["ipykernel"]).
    + vm_compute. reflexivity.
    + discriminate.
  - apply H2.
    + repeat constructor; vm_compute; discriminate.
    + intros n w. reflexivity.
Defined.

Lemma bind_step {A B} (m : M A) (k : A -> M B) s a s' :
  m s = (Ret a, s') -> bind m k s = k a s'.
Proof. intros H. unfold bind. now rewrite H. Qed.

Lemma bind_exit {A B} (m : M A) (k : A -> M B) s c s' :
  m s = (Exit c, s') -> bind m k s = (Exit c, s').
Proof. intros H. unfold bind. now rewrite H. Qed.

Lemma never_exits_at {A} (m : M A) s : never_exits m -> exists a, fst (m s) = Ret a.
Proof. intros H. apply H. Qed.

(** Past the version check, [installs_required.py] reaches its summary
    when no import raises anything but [ImportError] and [spacy.load]
    raises nothing but [OSError] or [ImportError]: no step after the version
    check calls [sys.exit]. *)
Lemma installs_required_main_returns env s :
  version_lt (py_version env) (3, 8)%Z = false ->
  (forall n w, import_crash env n w = false) ->
  (forall m w, spacy_load_exc env m w <> Some RaisesOther) ->
  exists failed, fst (InstallsRequired.main env s) = Ret failed.
Proof.
  intros Hv Hc Hs. unfold InstallsRequired.main.
  rewrite (bind_step _ _ s true s)
    by (unfold InstallsRequired.check_python_version, ret; now rewrite Hv).
  cbn [negb]. apply never_exits_at.
  unfold InstallsRequired.install_core_packages, InstallsRequired.upgrade_pip,
    InstallsRequired.essential_packages, InstallsRequired.core_packages,
    InstallsRequired.check_and_download_nltk_data,
    InstallsRequired.check_and_download_spacy_model,
    InstallsRequired.check_and_setup_geoparser.
  cbn [for_each fold_m]. cbv zeta.
  repeat match goal with
  | |- forall _, _ => intros
  | |- never_exits (bind _ _) => apply never_exits_bind
  | |- never_exits (for_each _ _) => apply never_exits_for_each
  | |- never_exits (InstallsRequired.check_and_install_package _ _ None) =>
      apply never_exits_check_and_install_package; [vm_compute; discriminate|exact Hc]
  | |- never_exits (try_import _ _) =>
      apply never_exits_try_import; [discriminate|intros; apply Hc]
  | |- never_exits (InstallsRequired.spacy_model_loop _ _) =>
      apply never_exits_spacy_model_loop; exact Hs
  | |- never_exits (if ?b then _ else _) => destruct b
  | |- never_exits (match ?x with _ => _ end) => destruct x
  | |- _ => solve [eauto with monad_closure]
  end.
Qed.

(** [os.makedirs] raising: the exception leaves [create_vscode_settings]
    and ends the run with status 1. *)
Lemma create_vscode_settings_makedirs_fails env venv_path workspace_path s :
  makedirs_ok env (path_join env workspace_path ".vscode") (world s) = false ->
  SetupPythonEnvironment.create_vscode_settings env venv_path workspace_path s =
    (Exit 1%Z, mkSt (world s) (log s ++ [EvMakedirs (path_join env workspace_path ".vscode")])).
Proof.
  intros H. unfold SetupPythonEnvironment.create_vscode_settings.
  cbv [bind gets record]. rewrite H. reflexivity.
Qed.

Lemma create_vscode_settings_returns env venv_path workspace_path s :
  makedirs_ok env (path_join env workspace_path ".vscode") (world s) = true ->
  exists b s',
    SetupPythonEnvironment.create_vscode_settings env venv_path workspace_path s = (Ret b, s').
Proof.
  intros H. unfold SetupPythonEnvironment.create_vscode_settings,
    SetupPythonEnvironment.write_settings.
  cbv [bind gets record emit ret]. rewrite H. cbn.
  destruct (settings_json (world s)) as [|[]|]; cbn;
    try (destruct (write_ok _ _ _)); cbn; eauto.
Qed.

(** C3 (counterexample): Python 3.11 passes the version check, yet the run
    of [setup_python_environment.py] ends with exit status 1 because pip
    could not install the essential package [ipykernel]. *)
Lemma C3_item_failure_forces_exit :
  version_lt (py_version Scenarios.env_no_ipykernel) (3, 8)%Z = false /\
  fst (SetupPythonEnvironment.main Scenarios.env_no_ipykernel Scenarios.st_empty) = Exit 1%Z.
Proof. split; vm_compute; reflexivity. Qed.

(** C3 (amended): every exit of the three scripts has status 1.
    [installs_required.py] exits when the interpreter is older than 3.8;
    past that check it returns its summary, whatever packages failed, as
    long as no import raises anything but [ImportError] and [spacy.load]
    nothing but [OSError] or [ImportError] (an uncaught exception exits
    with status 1). [install_vscode_extensions.py] exits when no working
    VS Code command is found and otherwise returns, whatever extensions
    failed. [setup_python_environment.py] besides the version check exits
    when the environment cannot be created, when an essential package
    fails to install, when the Jupyter kernel cannot be registered, and
    when [os.makedirs] of the [.vscode] directory raises; otherwise it
    returns, whatever other packages failed. *)
Theorem C3_exit_status env s :
  let venv_path := path_join env (script_dir env) SetupPythonEnvironment.venv_name in
  let vscode_dir := path_join env (script_dir env) ".vscode" in
  (version_lt (py_version env) (3, 8)%Z = true ->
   InstallsRequired.main env s = (Exit 1%Z, s)) /\
  (version_lt (py_version env) (3, 8)%Z = false ->
   (forall n w, import_crash env n w = false) ->
   (forall m w, spacy_load_exc env m w <> Some RaisesOther) ->
   exists failed, fst (InstallsRequired.main env s) = Ret failed) /\
  exits_with 1%Z (InstallsRequired.main env) /\
  (forall r s1,
   InstallVscodeExtensions.check_vscode_installed env s = (Ret r, s1) ->
   match r with
   | None | Some EmptyString => InstallVscodeExtensions.main env s = (Exit 1%Z, s1)
   | Some _ => exists failed, fst (InstallVscodeExtensions.main env s) = Ret failed
   end) /\
  exits_with 1%Z (InstallVscodeExtensions.main env) /\
  (forall s1,
   version_lt (py_version env) (3, 8)%Z = false ->
   SetupPythonEnvironment.create_virtual_environment env venv_path s = (Ret false, s1) ->
   SetupPythonEnvironment.main env s = (Exit 1%Z, s1)) /\
  (forall s1 failed s2,
   version_lt (py_version env) (3, 8)%Z = false ->
   SetupPythonEnvironment.create_virtual_environment env venv_path s = (Ret true, s1) ->
   SetupPythonEnvironment.install_essential_packages env venv_path
     (snd (SetupPythonEnvironment.upgrade_pip_in_venv env venv_path s1)) = (Ret failed, s2) ->
   failed <> [] ->
   SetupPythonEnvironment.main env s = (Exit 1%Z, s2)) /\
  (forall s1 failed s2 kernel s3,
   version_lt (py_version env) (3, 8)%Z = false ->
   SetupPythonEnvironment.create_virtual_environment env venv_path s = (Ret true, s1) ->
   SetupPythonEnvironment.install_packages env venv_path
     (snd (SetupPythonEnvironment.upgrade_pip_in_venv env venv_path s1)) = (Ret failed, s2) ->
   SetupPythonEnvironment.setup_jupyter_kernel env venv_path s2 = (Ret kernel, s3) ->
   (kernel = false -> SetupPythonEnvironment.main env s = (Exit 1%Z, s3)) /\
   (kernel = true -> makedirs_ok env vscode_dir (world s3) = false ->
    SetupPythonEnvironment.main env s =
      (Exit 1%Z, mkSt (world s3) (log s3 ++ [EvMakedirs vscode_dir]))) /\
   (kernel = true -> makedirs_ok env vscode_dir (world s3) = true ->
    fst (SetupPythonEnvironment.main env s) = Ret failed)) /\
  exits_with 1%Z (SetupPythonEnvironment.main env).
Proof.
  intros venv_path vscode_dir.
  split; [|split; [|split; [|split; [|split; [|split; [|split; [|split]]]]]]].
  - intros H. unfold InstallsRequired.main, InstallsRequired.check_python_version,
      bind, ret, sys_exit. now rewrite H.
  - apply installs_required_main_returns.
  - unfold InstallsRequired.main, InstallsRequired.check_python_version,
      InstallsRequired.upgrade_pip, InstallsRequired.install_core_packages,
      InstallsRequired.check_and_download_nltk_data,
      InstallsRequired.check_and_download_spacy_model,
      InstallsRequired.spacy_models_required,
      InstallsRequired.check_and_setup_geoparser, InstallsRequired.check_and_install_package,
      try_import.
    cbn [InstallsRequired.spacy_model_loop]. cbv beta iota zeta.
    exit_codes.
  - intros r s1 H. unfold InstallVscodeExtensions.main.
    rewrite (bind_step _ _ s r s1 H).
    destruct r as [[|c cmd]|]; [reflexivity| |reflexivity].
    destruct (install_extensions_log env (String c cmd)
                InstallVscodeExtensions.extensions s1) as [failed [s' [Hl _]]].
    exists failed. now rewrite Hl.
  - unfold InstallVscodeExtensions.main, InstallVscodeExtensions.check_vscode_installed,
      InstallVscodeExtensions.install_extensions, InstallVscodeExtensions.install_extension,
      InstallVscodeExtensions.probe.
    cbv beta iota zeta.
    exit_codes.
  - intros s1 Hv Hc. unfold SetupPythonEnvironment.main.
    rewrite (bind_step _ _ s true s)
      by (unfold SetupPythonEnvironment.check_python_version, ret; now rewrite Hv).
    cbn [negb]. cbv zeta. fold venv_path.
    rewrite (bind_step _ _ s false s1 Hc). reflexivity.
  - intros s1 failed s2 Hv Hc He Hne. unfold SetupPythonEnvironment.main.
    rewrite (bind_step _ _ s true s)
      by (unfold SetupPythonEnvironment.check_python_version, ret; now rewrite Hv).
    cbn [negb]. cbv zeta. fold venv_path.
    rewrite (bind_step _ _ s true s1 Hc). cbn [negb].
    destruct (SetupPythonEnvironment.upgrade_pip_in_venv env venv_path s1) as [r s1'] eqn:Hu.
    assert (Hr : exists b, r = Ret b).
    { unfold SetupPythonEnvironment.upgrade_pip_in_venv, check_call in Hu.
      injection Hu as <- _. now eexists. }
    destruct Hr as [b ->].
    rewrite (bind_step _ _ s1 b s1' Hu).
    simpl in He.
    rewrite (bind_exit _ _ s1' 1%Z s2 (install_packages_essential_failure _ _ _ _ _ He Hne)).
    reflexivity.
  - intros s1 failed s2 kernel s3 Hv Hc Hp Hk.
    assert (Hmain : SetupPythonEnvironment.main env s =
      (if negb kernel then sys_exit 1%Z
       else _ <- SetupPythonEnvironment.create_vscode_settings env venv_path (script_dir env) ;;
            _ <- SetupPythonEnvironment.check_and_download_nltk_data env venv_path ;;
            _ <- SetupPythonEnvironment.check_and_download_spacy_model env venv_path ;;
            _ <- SetupPythonEnvironment.setup_geoparser env venv_path ;;
            ret failed) s3).
    { unfold SetupPythonEnvironment.main.
      rewrite (bind_step _ _ s true s)
        by (unfold SetupPythonEnvironment.check_python_version, ret; now rewrite Hv).
      cbn [negb]. cbv zeta. fold venv_path.
      rewrite (bind_step _ _ s true s1 Hc). cbn [negb].
      destruct (SetupPythonEnvironment.upgrade_pip_in_venv env venv_path s1) as [r s1'] eqn:Hu.
      assert (Hr : exists b, r = Ret b).
      { unfold SetupPythonEnvironment.upgrade_pip_in_venv, check_call in Hu.
        injection Hu as <- _. now eexists. }
      destruct Hr as [b ->].
      rewrite (bind_step _ _ s1 b s1' Hu).
      simpl in Hp. rewrite (bind_step _ _ s1' failed s2 Hp).
      rewrite (bind_step _ _ s2 kernel s3 Hk). reflexivity. }
    split; [|split].
    + intros ->. rewrite Hmain. reflexivity.
    + intros -> Hd. rewrite Hmain. cbn [negb].
      rewrite (bind_exit _ _ s3 1%Z _ (create_vscode_settings_makedirs_fails _ _ _ _ Hd)).
      reflexivity.
    + intros -> Hd. rewrite Hmain. cbn [negb].
      destruct (create_vscode_settings_returns env venv_path (script_dir env) s3 Hd)
        as [b [s4 Hs4]].
      rewrite (bind_step _ _ s3 b s4 Hs4).
      cbv [bind check_call for_each ret SetupPythonEnvironment.check_and_download_nltk_data
           SetupPythonEnvironment.check_and_download_spacy_model
           SetupPythonEnvironment.spacy_models_required SetupPythonEnvironment.setup_geoparser].
      reflexivity.
  - unfold SetupPythonEnvironment.main, SetupPythonEnvironment.check_python_version,
      SetupPythonEnvironment.create_virtual_environment, SetupPythonEnvironment.rmtree,
      SetupPythonEnvironment.venv_create,
      SetupPythonEnvironment.upgrade_pip_in_venv, SetupPythonEnvironment.install_packages,
      SetupPythonEnvironment.install_essential_packages,
      SetupPythonEnvironment.install_remaining_packages,
      SetupPythonEnvironment.install_package_in_venv, SetupPythonEnvironment.setup_jupyter_kernel,
      SetupPythonEnvironment.create_vscode_settings, SetupPythonEnvironment.write_settings,
      SetupPythonEnvironment.check_and_download_nltk_data,
      SetupPythonEnvironment.check_and_download_spacy_model,
      SetupPythonEnvironment.setup_geoparser.
    cbv beta iota zeta.
    exit_codes.
Qed.

Lemma C3_exit_status_witness :
  InstallsRequired.main Scenarios.env_old_broken Scenarios.st_empty =
    (Exit 1%Z, Scenarios.st_empty) /\
  (exists failed, fst (InstallsRequired.main Scenarios.env_no_ipykernel Scenarios.st_empty) =
                  Ret failed) /\
  InstallVscodeExtensions.main Scenarios.env_old_broken Scenarios.st_empty =
    (Exit 1%Z, snd (InstallVscodeExtensions.check_vscode_installed Scenarios.env_old_broken
                      Scenarios.st_empty)) /\
  SetupPythonEnvironment.main Scenarios.env_no_ipykernel Scenarios.st_empty =
    (Exit 1%Z,
     snd (SetupPythonEnvironment.install_essential_packages Scenarios.env_no_ipykernel
            "/home/student/ds101/ds101_env"
            (snd (SetupPythonEnvironment.upgrade_pip_in_venv Scenarios.env_no_ipykernel
                    "/home/student/ds101/ds101_env"
                    (snd (SetupPythonEnvironment.create_virtual_environment
                            Scenarios.env_no_ipykernel "/home/student/ds101/ds101_env"
                            Scenarios.st_empty)))))) /\
  fst (SetupPythonEnvironment.main Scenarios.env_ok Scenarios.st_empty) = Ret [].
Proof.
  destruct (C3_exit_status Scenarios.env_old_broken Scenarios.st_empty)
    as [H1 [_ [_ [H3 _]]]].
  destruct (C3_exit_status Scenarios.env_no_ipykernel Scenarios.st_empty)
    as [_ [H2 [_ [_ [_ [_ [H5 _]]]]]]].
  destruct (C3_exit_status Scenarios.env_ok Scenarios.st_empty)
    as [_ [_ [_ [_ [_ [_ [_ [H8 _]]]]]]]].
  split; [|split; [|split; [|split]]].
  - exact (H1 eq_refl).
  - exact (H2 eq_refl (fun _ _ => eq_refl) (fun _ _ H => ltac:(discriminate H))).
  - apply (H3 None). vm_compute. reflexivity.
  - apply (H5 (snd (SetupPythonEnvironment.create_virtual_environment
                      Scenarios.env_no_ipykernel "/home/student/ds101/ds101_env"
                      Scenarios.st_empty)) ["ipykernel"]).
    + reflexivity.
    + vm_compute. reflexivity.
    + vm_compute. reflexivity.
    + discriminate.
  - set (venv := "/home/student/ds101/ds101_env").
    set (s1 := snd (SetupPythonEnvironment.create_virtual_environment Scenarios.env_ok venv
                      Scenarios.st_empty)).
    set (s2 := snd (SetupPythonEnvironment.install_packages Scenarios.env_ok venv
                      (snd (SetupPythonEnvironment.upgrade_pip_in_venv Scenarios.env_ok venv s1)))).
    set (s3 := snd (SetupPythonEnvironment.setup_jupyter_kernel Scenarios.env_ok venv s2)).
    refine (proj2 (proj2 (H8 s1 [] s2 true s3 _ _ _ _)) eq_refl _).
    + reflexivity.
    + vm_compute. reflexivity.
    + vm_compute. reflexivity.
    + vm_compute. reflexivity.
    + vm_compute. reflexivity.
Defined.

Definition count_runs (es : list Event) : nat :=
  length (filter (fun e => match e with EvRun _ => true | _ => false end) es).

(** The core-package loop over packages that all import: no command, no
    change to the machine, nothing failed. *)
Lemma install_core_packages_satisfied env packages essential s :
  Forall (fun p => InstallsRequired.default_import_name p <> "") packages ->
  forallb (fun p => mem p essential ||
                    mem (InstallsRequired.default_import_name p) (modules (world s)))
          packages = true ->
  InstallsRequired.install_core_packages env packages essential s =
  (Ret [], mkSt (world s)
                (log s ++ map (fun p => EvImport (InstallsRequired.default_import_name p))
                              (filter (fun p => negb (mem p essential)) packages))).
Proof.
  unfold InstallsRequired.install_core_packages.
  assert (Hgen : forall acc s,
    Forall (fun p => InstallsRequired.default_import_name p <> "") packages ->
    forallb (fun p => mem p essential ||
                      mem (InstallsRequired.default_import_name p) (modules (world s)))
            packages = true ->
    fold_m packages (fun failed package =>
      if negb (mem package essential) then
        ok <- InstallsRequired.check_and_install_package env package None ;;
        ret (if ok then failed else (failed ++ [package])%list)
      else ret failed) acc s =
    (Ret acc, mkSt (world s)
                   (log s ++ map (fun p => EvImport (InstallsRequired.default_import_name p))
                                 (filter (fun p => negb (mem p essential)) packages)))).
  { induction packages as [|x packages IH]; intros acc s0 Hne Hall; simpl.
    - destruct s0; simpl. unfold ret. now rewrite app_nil_r.
    - apply andb_prop in Hall as [Hx Hall]. inversion Hne as [|? ? Hx0 Hne']; subst.
      destruct (mem x essential) eqn:Ess; simpl.
      + cbv [bind ret]. rewrite IH by assumption. reflexivity.
      + cbv [bind]. rewrite check_and_install_package_eq. cbv zeta.
        simpl in Hx. rewrite (proj2 (String.eqb_neq _ _) Hx0), Hx. unfold ret.
        rewrite IH by assumption. simpl. now rewrite <- app_assoc. }
  apply Hgen.
Qed.

(** ** Further properties of the three scripts *)

Lemma prefix_trans (a b c : string) :
  String.prefix a b = true -> String.prefix b c = true -> String.prefix a c = true.
Proof.
  revert b c. induction a as [|x a IH]; intros b c Hab Hbc.
  - destruct c; reflexivity.
  - destruct b as [|y b]; [discriminate Hab|]. destruct c as [|z c]; [discriminate Hbc|].
    simpl in *. destruct (Ascii.ascii_dec x y); [subst y|discriminate Hab].
    destruct (Ascii.ascii_dec x z); [subst z|discriminate Hbc].
    destruct (Ascii.ascii_dec x x); [eauto|congruence].
Qed.

Lemma strip_version_specifier_prefix s :
  String.prefix (strip_version_specifier s) s = true.
Proof.
  induction s as [|c s IH]; [reflexivity|]. cbn [strip_version_specifier].
  destruct (String.prefix ">=" (String c s) || String.prefix "<" (String c s)); [reflexivity|].
  simpl. destruct (Ascii.ascii_dec c c); [exact IH|congruence].
Qed.

Lemma strip_version_specifier_idem s :
  strip_version_specifier (strip_version_specifier s) = strip_version_specifier s.
Proof.
  induction s as [|c s IH]; [reflexivity|]. cbn [strip_version_specifier].
  destruct (String.prefix ">=" (String c s) || String.prefix "<" (String c s)) eqn:E;
    [reflexivity|].
  cbn [strip_version_specifier].
  assert (Hp : String.prefix (String c (strip_version_specifier s)) (String c s) = true).
  { simpl. destruct (Ascii.ascii_dec c c); [apply strip_version_specifier_prefix|congruence]. }
  destruct (String.prefix ">=" (String c (strip_version_specifier s))) eqn:E1.
  { rewrite (prefix_trans _ _ _ E1 Hp) in E. discriminate E. }
  destruct (String.prefix "<" (String c (strip_version_specifier s))) eqn:E2.
  { rewrite (prefix_trans _ _ _ E2 Hp), orb_true_r in E. discriminate E. }
  simpl. now rewrite IH.
Qed.

(** [check_and_install_package] without [import_name]: the name it imports
    is a prefix of the package name (the part before the version
    specifier), and deriving the import name again from it gives the same
    name, so a package given without specifier is imported under its own
    name. *)
Theorem default_import_name_prefix_idem package_name :
  String.prefix (InstallsRequired.default_import_name package_name) package_name = true /\
  InstallsRequired.default_import_name (InstallsRequired.default_import_name package_name) =
  InstallsRequired.default_import_name package_name.
Proof.
  rewrite !default_import_name_spec. split.
  - apply strip_version_specifier_prefix.
  - apply strip_version_specifier_idem.
Qed.

(** [create_vscode_settings] on a settings file that does not parse, or
    whose top-level value is not an object, returns [False] and writes
    nothing: it only makes the [.vscode] directory, which raises when that
    fails. *)
Theorem create_vscode_settings_rejects_non_object env venv_path workspace_path s :
  (settings_json (world s) = Unparsable \/
   exists j, settings_json (world s) = Contents j /\ forall kv, j <> JObj kv) ->
  SetupPythonEnvironment.create_vscode_settings env venv_path workspace_path s =
  (if makedirs_ok env (path_join env workspace_path ".vscode") (world s)
   then Ret false else Exit 1%Z,
   mkSt (world s) (log s ++ [EvMakedirs (path_join env workspace_path ".vscode")])).
Proof.
  intros H. unfold SetupPythonEnvironment.create_vscode_settings.
  cbv [bind gets record ret uncaught_exception sys_exit].
  destruct (makedirs_ok _ _ _); cbn; [|reflexivity].
  destruct H as [H|[j [H Hj]]]; rewrite H; [reflexivity|].
  destruct j; try reflexivity. exfalso. eapply Hj. reflexivity.
Qed.

Lemma create_vscode_settings_rejects_non_object_witness :
  fst (SetupPythonEnvironment.create_vscode_settings Scenarios.env_ok "/tmp/ds101_env" "/tmp"
         (mkSt Scenarios.world_broken_settings [])) = Ret false /\
  fst (SetupPythonEnvironment.create_vscode_settings Scenarios.env_ok "/tmp/ds101_env" "/tmp"
         (mkSt (set_settings_json (Contents (JArr [])) Scenarios.world_empty) [])) = Ret false.
Proof.
  split.
  - rewrite (create_vscode_settings_rejects_non_object Scenarios.env_ok "/tmp/ds101_env" "/tmp"
               (mkSt Scenarios.world_broken_settings []) (or_introl eq_refl)).
    reflexivity.
  - rewrite (create_vscode_settings_rejects_non_object Scenarios.env_ok "/tmp/ds101_env" "/tmp"
               (mkSt (set_settings_json (Contents (JArr [])) Scenarios.world_empty) [])
               (or_intror (ex_intro _ (JArr []) (conj eq_refl
                  (fun kv (Hkv : JArr [] = JObj kv) => ltac:(discriminate Hkv)))))).
    reflexivity.
Defined.

Lemma dict_set_present d k v :
  SetupPythonEnvironment.dict_get d k = Some v -> SetupPythonEnvironment.dict_set d k v = d.
Proof.
  induction d as [|[k' v'] d IH]; simpl; intros H; [discriminate H|].
  destruct (String.eqb k k'); [now injection H as ->|now rewrite IH].
Qed.

Lemma dict_update_present d u :
  (forall k v, In (k, v) u -> SetupPythonEnvironment.dict_get d k = Some v) ->
  SetupPythonEnvironment.dict_update d u = d.
Proof.
  unfold SetupPythonEnvironment.dict_update. revert d.
  induction u as [|[k v] u IH]; intros d H; simpl; [reflexivity|].
  rewrite dict_set_present by (apply H; now left).
  apply IH. intros k0 v0 Hin. apply H. now right.
Qed.

Lemma dict_get_update_notin d u k :
  ~ In k (map fst u) ->
  SetupPythonEnvironment.dict_get (SetupPythonEnvironment.dict_update d u) k =
  SetupPythonEnvironment.dict_get d k.
Proof.
  unfold SetupPythonEnvironment.dict_update. revert d.
  induction u as [|[k' v] u IH]; intros d H; simpl; [reflexivity|].
  simpl in H. rewrite IH by tauto. apply dict_get_set_other. intros ->. tauto.
Qed.

Lemma dict_get_update_in d u k v :
  NoDup (map fst u) -> In (k, v) u ->
  SetupPythonEnvironment.dict_get (SetupPythonEnvironment.dict_update d u) k = Some v.
Proof.
  revert d. induction u as [|[k' v'] u IH]; intros d Hnd Hin; [destruct Hin|].
  simpl in Hnd. inversion Hnd as [|? ? Hk Hnd']; subst.
  change (SetupPythonEnvironment.dict_update d ((k', v') :: u)) with
    (SetupPythonEnvironment.dict_update (SetupPythonEnvironment.dict_set d k' v') u).
  destruct Hin as [Heq|Hin].
  - injection Heq as -> ->. rewrite dict_get_update_notin by exact Hk.
    apply dict_get_set_same.
  - now apply IH.
Qed.

Lemma vscode_settings_keys_nodup vp :
  NoDup (map fst (SetupPythonEnvironment.vscode_settings vp)).
Proof. simpl. repeat constructor; simpl; intuition discriminate. Qed.

(** [create_vscode_settings] is idempotent on the settings file: once it
    has written the file, running it again, where the directory can still
    be made and the file still written, succeeds and writes back the same
    JSON value. *)
Theorem create_vscode_settings_idempotent env venv_path workspace_path s s1 :
  SetupPythonEnvironment.create_vscode_settings env venv_path workspace_path s = (Ret true, s1) ->
  makedirs_ok env (path_join env workspace_path ".vscode") (world s1) = true ->
  write_ok env (path_join env (path_join env workspace_path ".vscode") "settings.json")
    (world s1) = true ->
  exists s2,
    SetupPythonEnvironment.create_vscode_settings env venv_path workspace_path s1 = (Ret true, s2) /\
    settings_json (world s2) = settings_json (world s1).
Proof.
  intros H Hm Hw.
  unfold SetupPythonEnvironment.create_vscode_settings, SetupPythonEnvironment.write_settings in *.
  cbv [bind gets record emit ret uncaught_exception sys_exit] in *.
  set (u := SetupPythonEnvironment.vscode_settings _) in *.
  assert (Hu : forall d, SetupPythonEnvironment.dict_update (SetupPythonEnvironment.dict_update d u) u =
                         SetupPythonEnvironment.dict_update d u).
  { intros d. apply dict_update_present. intros k v Hin.
    apply dict_get_update_in; [apply vscode_settings_keys_nodup|exact Hin]. }
  assert (Hu0 : SetupPythonEnvironment.dict_update [] u = u) by reflexivity.
  clearbody u.
  destruct (makedirs_ok env (path_join env workspace_path ".vscode") (world s));
    cbn in H; [|discriminate H].
  destruct (settings_json (world s)) as [|[| | | | |d]|] eqn:Hs; cbn in H; try discriminate H;
    (destruct (write_ok env _ (world s)); cbn in H; [|discriminate H]);
    injection H as <-; cbn in Hm, Hw |- *; rewrite Hm; cbn; rewrite Hw;
    eexists; (split; [reflexivity|]); cbn.
  - pose proof (Hu []) as Huu. rewrite Hu0 in Huu. now rewrite Huu.
  - now rewrite Hu.
Qed.

Lemma create_vscode_settings_idempotent_witness :
  exists s2,
    SetupPythonEnvironment.create_vscode_settings Scenarios.env_ok "/tmp/ds101_env" "/tmp"
      (snd (SetupPythonEnvironment.create_vscode_settings Scenarios.env_ok "/tmp/ds101_env" "/tmp"
              Scenarios.st_previous_setup)) = (Ret true, s2) /\
    settings_json (world s2) =
    settings_json (world (snd (SetupPythonEnvironment.create_vscode_settings Scenarios.env_ok
                                 "/tmp/ds101_env" "/tmp" Scenarios.st_previous_setup))).
Proof.
  apply (create_vscode_settings_idempotent Scenarios.env_ok "/tmp/ds101_env" "/tmp"
           Scenarios.st_previous_setup); reflexivity.
Defined.

Lemma mem_app x l1 l2 : mem x (l1 ++ l2) = mem x l1 || mem x l2.
Proof. unfold mem. apply existsb_app. Qed.

Lemma dict_set_keys d k v :
  map fst (SetupPythonEnvironment.dict_set d k v) =
  if mem k (map fst d) then map fst d else map fst d ++ [k].
Proof.
  induction d as [|[k' v'] d IH]; simpl; [reflexivity|].
  unfold mem in *; simpl. destruct (String.eqb k k') eqn:E; simpl; [reflexivity|].
  rewrite IH. now destruct (existsb _ _).
Qed.

Lemma dict_update_keys d u :
  NoDup (map fst u) ->
  map fst (SetupPythonEnvironment.dict_update d u) =
  map fst d ++ filter (fun k => negb (mem k (map fst d))) (map fst u).
Proof.
  revert d. induction u as [|[k v] u IH]; intros d Hnd; simpl; [now rewrite app_nil_r|].
  inversion Hnd as [|? ? Hk Hnd']; subst.
  change (SetupPythonEnvironment.dict_update d ((k, v) :: u)) with
    (SetupPythonEnvironment.dict_update (SetupPythonEnvironment.dict_set d k v) u).
  rewrite IH by exact Hnd'. rewrite dict_set_keys.
  destruct (mem k (map fst d)) eqn:Ek; simpl; [reflexivity|].
  rewrite <- app_assoc. simpl. f_equal. f_equal.
  apply filter_ext_in. intros x Hx. rewrite mem_app. unfold mem at 2; simpl.
  destruct (String.eqb x k) eqn:Ex; [|now rewrite orb_false_r].
  apply String.eqb_eq in Ex. subst x. contradiction.
Qed.

(** [create_vscode_settings] on a settings file holding an object keeps
    the order of the file: the old keys come first, in their old order,
    and the interpreter keys the file did not have yet follow, in the order
    the script lists them. *)
Theorem create_vscode_settings_key_order env venv_path workspace_path s d :
  settings_json (world s) = Contents (JObj d) ->
  makedirs_ok env (path_join env workspace_path ".vscode") (world s) = true ->
  write_ok env (path_join env (path_join env workspace_path ".vscode") "settings.json")
    (world s) = true ->
  exists s1 d1,
    SetupPythonEnvironment.create_vscode_settings env venv_path workspace_path s = (Ret true, s1) /\
    settings_json (world s1) = Contents (JObj d1) /\
    map fst d1 = map fst d ++
      filter (fun k => negb (mem k (map fst d)))
             ["python.pythonPath"; "python.defaultInterpreterPath"; "jupyter.kernels.filter"].
Proof.
  intros H Hm Hw.
  unfold SetupPythonEnvironment.create_vscode_settings, SetupPythonEnvironment.write_settings.
  cbv [bind gets record ret].
  rewrite Hm. cbn -[SetupPythonEnvironment.dict_update SetupPythonEnvironment.vscode_settings].
  rewrite H. cbn -[SetupPythonEnvironment.dict_update SetupPythonEnvironment.vscode_settings].
  rewrite Hw. do 2 eexists. split; [reflexivity|]. split; [reflexivity|].
  rewrite dict_update_keys by apply vscode_settings_keys_nodup. reflexivity.
Qed.

Lemma create_vscode_settings_key_order_witness :
  exists s1 d1,
    SetupPythonEnvironment.create_vscode_settings Scenarios.env_ok "/tmp/ds101_env" "/tmp"
      Scenarios.st_previous_setup = (Ret true, s1) /\
    settings_json (world s1) = Contents (JObj d1) /\
    map fst d1 = ["editor.fontSize"; "python.pythonPath"; "files.autoSave";
                  "python.defaultInterpreterPath"; "jupyter.kernels.filter"].
Proof.
  destruct (create_vscode_settings_key_order Scenarios.env_ok "/tmp/ds101_env" "/tmp"
              Scenarios.st_previous_setup _ eq_refl eq_refl eq_refl) as [s1 [d1 [H1 [H2 H3]]]].
  exists s1, d1. split; [exact H1|]. split; [exact H2|]. rewrite H3. reflexivity.
Defined.

Lemma bind_ret_inv {A B} (m : M A) (k : A -> M B) s b s' :
  bind m k s = (Ret b, s') -> exists a s1, m s = (Ret a, s1) /\ k a s1 = (Ret b, s').
Proof.
  unfold bind. destruct (m s) as [[a|c] s1]; intros H; [now exists a, s1|discriminate H].
Qed.

Lemma find_first_some {A B} (l : list A) (body : A -> M (option B)) s b s' :
  find_first l body s = (Ret (Some b), s') ->
  exists x s0, In x l /\ body x s0 = (Ret (Some b), s').
Proof.
  revert s. induction l as [|x l IH]; intros s H; simpl in H.
  - discriminate H.
  - apply bind_ret_inv in H as [[b'|] [s1 [H1 H2]]].
    + exists x, s. split; [now left|]. rewrite H1. exact H2.
    + destruct (IH s1 H2) as [y [s0 [Hin Hy]]]. exists y, s0. split; [now right|exact Hy].
Qed.

(** One candidate of [check_vscode_installed]: present (on the search path,
    or as a file), then probed with [--version]. *)
Lemma probe_candidate_some env (g : string -> World -> bool) x s b s' :
  (on <- gets (g x) ;;
   if on then works <- InstallVscodeExtensions.probe env x ;;
              ret (if works then Some x else None)
   else ret None) s = (Ret (Some b), s') ->
  let c := mkCmd [x; "--version"] (Some 10%Z) true in
  b = x /\ g x (world s) = true /\
  (exists out, run_res env c (world s) = Completed 0 out) /\
  s' = mkSt (effect env (EvRun c) (world s)) (log s ++ [EvRun c]).
Proof.
  unfold InstallVscodeExtensions.probe. run_m.
  destruct (g x (world s)) eqn:Hg; [|intros H; discriminate H].
  destruct (run_res _ _ _) as [[|r|r] out| | |] eqn:Hr; intros H; try discriminate H.
  injection H as <- <-. simpl. split; [reflexivity|]. split; [reflexivity|].
  split; [eexists; reflexivity|reflexivity].
Qed.

(** [check_vscode_installed] returns only one of the places it is written
    to try ([code], [code-insiders], then the Windows or macOS install
    locations), found present, whose [--version] probe completed with exit
    status 0; that probe, run in the state reached just before it, is the
    last thing the function did. *)
Theorem check_vscode_installed_found env s p s' :
  InstallVscodeExtensions.check_vscode_installed env s = (Ret (Some p), s') ->
  let c := mkCmd [p; "--version"] (Some 10%Z) true in
  In p (InstallVscodeExtensions.vscode_commands ++
        match platform env with
        | Windows => InstallVscodeExtensions.windows_paths (username env)
        | Darwin => [InstallVscodeExtensions.darwin_path]
        | Linux => []
        end) /\
  exists s_mid out,
    run_res env c (world s_mid) = Completed 0 out /\
    s' = mkSt (effect env (EvRun c) (world s_mid)) (log s_mid ++ [EvRun c]).
Proof.
  unfold InstallVscodeExtensions.check_vscode_installed. intros H; cbv zeta.
  apply bind_ret_inv in H as [found [s1 [H1 H2]]].
  destruct found as [c0|].
  - unfold ret in H2. injection H2 as <- <-.
    apply find_first_some in H1 as [x [s0 [Hin Hx]]].
    apply (probe_candidate_some env (which env)) in Hx as [-> [_ [[out Hr] Hl]]].
    split; [apply in_or_app; now left|]. exists s0, out. split; [exact Hr|exact Hl].
  - destruct (platform env).
    + apply find_first_some in H2 as [x [s0 [Hin Hx]]].
      apply (probe_candidate_some env (path_exists env)) in Hx as [-> [_ [[out Hr] Hl]]].
      split; [apply in_or_app; now right|]. exists s0, out. split; [exact Hr|exact Hl].
    + apply (probe_candidate_some env (path_exists env)) in H2 as [-> [_ [[out Hr] Hl]]].
      split; [apply in_or_app; right; now left|]. exists s1, out. split; [exact Hr|exact Hl].
    + discriminate H2.
Qed.

Lemma check_vscode_installed_found_witness :
  In InstallVscodeExtensions.darwin_path
     (InstallVscodeExtensions.vscode_commands ++ [InstallVscodeExtensions.darwin_path]) /\
  exists s_mid out,
    run_res Scenarios.env_mac_app_only
      (mkCmd [InstallVscodeExtensions.darwin_path; "--version"] (Some 10%Z) true)
      (world s_mid) = Completed 0 out.
Proof.
  destruct (check_vscode_installed_found Scenarios.env_mac_app_only Scenarios.st_empty
              InstallVscodeExtensions.darwin_path
              (snd (InstallVscodeExtensions.check_vscode_installed Scenarios.env_mac_app_only
                      Scenarios.st_empty)))
    as [Hin [s_mid [out [Hr _]]]]; [vm_compute; reflexivity|].
  split; [exact Hin|]. exists s_mid, out. exact Hr.
Defined.

(** [install_vscode_extensions.py] on Linux with neither [code] nor
    [code-insiders] on the search path: [main] exits with status 1 without
    starting any process and without changing anything. *)
Theorem vscode_main_linux_not_on_path env s :
  platform env = Linux ->
  which env "code" (world s) = false -> which env "code-insiders" (world s) = false ->
  InstallVscodeExtensions.main env s = (Exit 1%Z, s).
Proof.
  intros Hp H1 H2. unfold InstallVscodeExtensions.main,
    InstallVscodeExtensions.check_vscode_installed, InstallVscodeExtensions.vscode_commands.
  run_m. rewrite H1, H2, Hp. reflexivity.
Qed.

Lemma vscode_main_linux_not_on_path_witness :
  InstallVscodeExtensions.main Scenarios.env_no_code Scenarios.st_provisioned =
  (Exit 1%Z, Scenarios.st_provisioned).
Proof.
  apply vscode_main_linux_not_on_path; reflexivity.
Defined.

Definition vscode_script_event (e : Event) : Prop :=
  match e with
  | EvRun c =>
      capture_output c = true /\
      ((timeout c = Some 10%Z /\ exists p, argv c = [p; "--version"]) \/
       (timeout c = Some 60%Z /\ exists cmd id, argv c = InstallVscodeExtensions.install_argv cmd id))
  | _ => False
  end.

(** [install_vscode_extensions.py] starts only two kinds of process, each
    with captured output and a timeout: [--version] probes (10 s) and
    [--install-extension] commands (60 s). It imports nothing, downloads
    nothing else and writes no file. *)
Theorem vscode_main_only_probes_and_installs env :
  adds vscode_script_event (InstallVscodeExtensions.main env).
Proof.
  unfold InstallVscodeExtensions.main. apply adds_bind.
  - eapply adds_mono; [|apply check_vscode_installed_probes].
    intros e [p ->]. simpl. split; [reflexivity|]. left. split; [reflexivity|]. eauto.
  - intros [[|c cs]|]; [apply adds_sys_exit| |apply adds_sys_exit].
    unfold InstallVscodeExtensions.install_extensions, InstallVscodeExtensions.install_extension.
    adds_events ltac:(simpl; split; [reflexivity|]; right; split; [reflexivity|]; eauto).
Qed.

(** [install_extensions]: when each install's outcome depends only on the
    extension ([good]), the returned list holds exactly the display names
    of the extensions whose install did not complete with status 0, in list
    order. *)
Theorem install_extensions_reports_failures env vscode_cmd exts (good : string -> bool) s :
  (forall id w,
     match run_res env (mkCmd (InstallVscodeExtensions.install_argv vscode_cmd id) (Some 60%Z) true) w
     with Completed 0 _ => true | _ => false end = good id) ->
  fst (InstallVscodeExtensions.install_extensions env vscode_cmd exts s) =
  Ret (map snd (filter (fun ext => negb (good (fst ext))) exts)).
Proof.
  intros Hg. unfold InstallVscodeExtensions.install_extensions.
  assert (Hgen : forall acc s,
    fst (fold_m exts (fun failed '(extension_id, extension_name) =>
           ok <- InstallVscodeExtensions.install_extension env vscode_cmd extension_id extension_name ;;
           ret (if ok then failed else (failed ++ [extension_name])%list)) acc s) =
    Ret (acc ++ map snd (filter (fun ext => negb (good (fst ext))) exts))).
  { induction exts as [|[id name] exts IH]; intros acc s0; cbn [fold_m].
    - simpl. now rewrite app_nil_r.
    - set (c := mkCmd (InstallVscodeExtensions.install_argv vscode_cmd id) (Some 60%Z) true).
      rewrite (bind_step _ _ s0 (if good id then acc else (acc ++ [name])%list)
                 (mkSt (effect env (EvRun c) (world s0)) (log s0 ++ [EvRun c]))).
      + cbn [filter fst]. destruct (good id); simpl; rewrite IH; [reflexivity|].
        now rewrite <- app_assoc.
      + unfold bind. rewrite install_extension_eq. cbv zeta. subst c. rewrite Hg.
        reflexivity. }
  exact (Hgen [] s).
Qed.

Lemma install_extensions_reports_failures_witness :
  fst (InstallVscodeExtensions.install_extensions Scenarios.env_pylint_fails "code"
         InstallVscodeExtensions.extensions Scenarios.st_empty) = Ret ["Pylint (Python Linting)"].
Proof.
  rewrite (install_extensions_reports_failures Scenarios.env_pylint_fails "code"
             InstallVscodeExtensions.extensions (fun id => negb (String.eqb "ms-python.pylint" id))).
  - reflexivity.
  - intros id w. destruct (String.eqb "ms-python.pylint" id) eqn:E.
    + apply String.eqb_eq in E. subst id. reflexivity.
    + unfold Scenarios.env_pylint_fails, InstallVscodeExtensions.install_argv.
      cbn [run_res argv]. unfold mem. cbn [existsb]. rewrite E. reflexivity.
Defined.

(** [check_and_setup_geoparser] downloads nothing when [geoparser] does not
    import (it returns [False] after the one import, unless that import
    raises something other than [ImportError]), and nothing when
    [appdirs] imports either: then it only reads the database, and returns
    [True] exactly when the database is non-empty and the geoparser works,
    [None] otherwise, never [False]. *)
Theorem check_and_setup_geoparser_no_download env s :
  (mem "geoparser" (modules (world s)) = false ->
   InstallsRequired.check_and_setup_geoparser env s =
   (if import_crash env "geoparser" (world s) then Exit 1%Z else Ret (Some false),
    mkSt (world s) (log s ++ [EvImport "geoparser"]))) /\
  (mem "geoparser" (modules (world s)) = true -> mem "appdirs" (modules (world s)) = true ->
   exists r,
     InstallsRequired.check_and_setup_geoparser env s =
     (Ret r, mkSt (world s) (log s ++ [EvImport "geoparser"; EvImport "appdirs"])) /\
     r <> Some false /\
     (r = Some true <->
      (exists n, geonames_db_size (world s) = Some n /\ (0 < n)%Z) /\
      geoparser_works (world s) = true)).
Proof.
  unfold InstallsRequired.check_and_setup_geoparser. run_m. split.
  - intros H. rewrite H. cbn -[mem]. now destruct (import_crash env "geoparser" (world s)).
  - intros Hg Ha. rewrite Hg. cbn -[mem]. rewrite Ha. cbn. rewrite <- app_assoc. cbn.
    destruct (geonames_db_size (world s)) as [n|] eqn:Hn.
    + destruct (Z.ltb_spec 0 n) as [Hlt|Hge]; cbn.
      * destruct (geoparser_works (world s)) eqn:Hw; cbn; eexists; (split; [reflexivity|]);
          (split; [congruence|]); split.
        -- intros _. split; [eauto|reflexivity].
        -- reflexivity.
        -- intros H; discriminate H.
        -- intros [_ H]; discriminate H.
      * eexists; (split; [reflexivity|]); (split; [congruence|]); split.
        -- intros H; discriminate H.
        -- intros [[m [Hm Hlt]] _]. injection Hm as <-. lia.
    + eexists; (split; [reflexivity|]); (split; [congruence|]); split.
      -- intros H; discriminate H.
      -- intros [[m [Hm _]] _]. discriminate Hm.
Qed.

Lemma check_and_setup_geoparser_no_download_witness :
  InstallsRequired.check_and_setup_geoparser Scenarios.env_ok Scenarios.st_empty =
    (Ret (Some false), mkSt Scenarios.world_empty [EvImport "geoparser"]) /\
  exists r,
    InstallsRequired.check_and_setup_geoparser Scenarios.env_ok Scenarios.st_provisioned =
    (Ret r, mkSt Scenarios.world_provisioned [EvImport "geoparser"; EvImport "appdirs"]) /\
    r <> Some false /\
    (r = Some true <->
     (exists n, geonames_db_size Scenarios.world_provisioned = Some n /\ (0 < n)%Z) /\
     geoparser_works Scenarios.world_provisioned = true).
Proof.
  split.
  - exact (proj1 (check_and_setup_geoparser_no_download Scenarios.env_ok Scenarios.st_empty)
             eq_refl).
  - exact (proj2 (check_and_setup_geoparser_no_download Scenarios.env_ok Scenarios.st_provisioned)
             eq_refl eq_refl).
Defined.

(** [check_and_setup_geoparser] with [geoparser] importable and [appdirs]
    missing runs the GeoNames download once, with no timeout, and returns
    whether its exit status was 0, without checking the database; unless
    the import of [appdirs] raises something other than [ImportError]. *)
Theorem check_and_setup_geoparser_download_unverified env s :
  mem "geoparser" (modules (world s)) = true -> mem "appdirs" (modules (world s)) = false ->
  let c := mkCmd (InstallsRequired.geonames_download_argv (sys_executable env)) None false in
  InstallsRequired.check_and_setup_geoparser env s =
  if import_crash env "appdirs" (world s)
  then (Exit 1%Z, mkSt (world s) (log s ++ [EvImport "geoparser"; EvImport "appdirs"]))
  else (Ret (Some (call_rc env (argv c) (world s) =? 0)%Z),
        mkSt (effect env (EvRun c) (world s))
             (log s ++ [EvImport "geoparser"; EvImport "appdirs"; EvRun c])).
Proof.
  intros Hg Ha c. unfold InstallsRequired.check_and_setup_geoparser. run_m.
  rewrite Hg. cbn -[mem]. rewrite Ha. cbn.
  destruct (import_crash env "appdirs" (world s)); cbn; now rewrite <- !app_assoc.
Qed.

Lemma check_and_setup_geoparser_download_unverified_witness :
  InstallsRequired.check_and_setup_geoparser Scenarios.env_pip_fails
    (mkSt Scenarios.world_geoparser_only []) =
  (Ret (Some false),
   mkSt Scenarios.world_geoparser_only
        [EvImport "geoparser"; EvImport "appdirs";
         EvRun (mkCmd ["/usr/bin/python3"; "-m"; "geoparser"; "download"; "geonames"] None false)]).
Proof.
  exact (check_and_setup_geoparser_download_unverified Scenarios.env_pip_fails
           (mkSt Scenarios.world_geoparser_only []) eq_refl eq_refl).
Defined.

(** In [installs_required.py] the NLTK and spaCy steps do nothing but the
    failed import when their library does not import: no data download, no
    model download (and an exit through the uncaught exception when that
    import raises something other than [ImportError]). *)
Theorem nlp_downloads_skipped_without_library env s :
  (mem "nltk" (modules (world s)) = false ->
   InstallsRequired.check_and_download_nltk_data env s =
   (if import_crash env "nltk" (world s) then Exit 1%Z else Ret tt,
    mkSt (world s) (log s ++ [EvImport "nltk"]))) /\
  (mem "spacy" (modules (world s)) = false ->
   InstallsRequired.check_and_download_spacy_model env s =
   (if import_crash env "spacy" (world s) then Exit 1%Z else Ret tt,
    mkSt (world s) (log s ++ [EvImport "spacy"]))).
Proof.
  unfold InstallsRequired.check_and_download_nltk_data,
    InstallsRequired.check_and_download_spacy_model. run_m.
  split; intros H; rewrite H; cbn -[mem].
  - now destruct (import_crash env "nltk" (world s)).
  - now destruct (import_crash env "spacy" (world s)).
Qed.

Lemma nlp_downloads_skipped_without_library_witness :
  InstallsRequired.check_and_download_nltk_data Scenarios.env_ok Scenarios.st_empty =
    (Ret tt, mkSt Scenarios.world_empty [EvImport "nltk"]) /\
  InstallsRequired.check_and_download_spacy_model Scenarios.env_ok Scenarios.st_empty =
    (Ret tt, mkSt Scenarios.world_empty [EvImport "spacy"]).
Proof.
  destruct (nlp_downloads_skipped_without_library Scenarios.env_ok Scenarios.st_empty)
    as [H1 H2].
  split; [exact (H1 eq_refl)|exact (H2 eq_refl)].
Defined.

Lemma fold_failed_selected (l : list string) (body : list string -> string -> M (list string))
    (sel : string -> bool) acc s failed s1 :
  fold_m l body acc s = (Ret failed, s1) ->
  (forall acc x s r s', body acc x s = (Ret r, s') ->
                        r = acc \/ (r = (acc ++ [x])%list /\ sel x = true)) ->
  forall p, In p failed -> In p acc \/ (In p l /\ sel p = true).
Proof.
  intros H Hb. revert acc s H. induction l as [|x l IH]; intros acc s H p Hp; cbn [fold_m] in H.
  - unfold ret in H. injection H as <- _. now left.
  - apply bind_ret_inv in H as [acc1 [s2 [H1 H2]]].
    destruct (IH _ _ H2 p Hp) as [Hin|[Hin Hs]]; [|right; split; [now right|exact Hs]].
    destruct (Hb _ _ _ _ _ H1) as [->|[-> Hx]]; [now left|].
    apply in_app_or in Hin as [Hin|[<-|[]]]; [now left|].
    right. split; [now left|exact Hx].
Qed.

(** The loop bodies of lines 258-262 of [installs_required.py] and
    337-340 of [setup_python_environment.py]: a selected package is
    appended when its install fails, nothing else is. *)
Lemma failed_body_step (ess : list string) (m : string -> M bool) acc x s r s' :
  (if negb (mem x ess) then
     ok <- m x ;; ret (if ok then acc else (acc ++ [x])%list)
   else ret acc) s = (Ret r, s') ->
  r = acc \/ (r = (acc ++ [x])%list /\ negb (mem x ess) = true).
Proof.
  destruct (negb (mem x ess)) eqn:E; intros H.
  - apply bind_ret_inv in H as [ok [s2 [_ H]]]. unfold ret in H. injection H as <- _.
    destruct ok; [now left|now right].
  - unfold ret in H. injection H as <- _. now left.
Qed.

(** The summary of [installs_required.py] lists only packages of
    [core_packages] outside [essential_packages]: [jupyterlab] is never
    reported, even when its install failed. *)
Theorem installs_required_summary_omits_essential env s failed s' :
  InstallsRequired.main env s = (Ret failed, s') ->
  (forall p, In p failed -> In p InstallsRequired.core_packages) /\ ~ In "jupyterlab" failed.
Proof.
  intros H. unfold InstallsRequired.main in H.
  apply bind_ret_inv in H as [c [s1 [_ H]]].
  destruct (negb c); [discriminate H|].
  apply bind_ret_inv in H as [u1 [s2 [_ H]]].
  apply bind_ret_inv in H as [u2 [s3 [_ H]]].
  apply bind_ret_inv in H as [fp [s4 [Hfp H]]].
  apply bind_ret_inv in H as [u3 [s5 [_ H]]].
  apply bind_ret_inv in H as [u4 [s6 [_ H]]].
  apply bind_ret_inv in H as [u5 [s7 [_ H]]].
  unfold ret in H. injection H as <- _.
  unfold InstallsRequired.install_core_packages in Hfp.
  pose proof (fold_failed_selected _ _ (fun p => negb (mem p InstallsRequired.essential_packages))
                _ _ _ _ Hfp
                (fun acc x s r s' =>
                   failed_body_step _ (fun p => InstallsRequired.check_and_install_package env p None)
                     acc x s r s')) as Hsel.
  split.
  - intros p Hp. destruct (Hsel p Hp) as [[]|[Hin _]]. exact Hin.
  - intros Hj. destruct (Hsel _ Hj) as [[]|[_ Hs]]. discriminate Hs.
Qed.

Lemma installs_required_summary_omits_essential_witness :
  fst (InstallsRequired.main Scenarios.env_pip_fails Scenarios.st_empty) =
    Ret ["ipywidgets"; "notebook"; "pandas"; "matplotlib"; "plotly"; "mapclassify"; "tqdm";
         "praw"; "nltk"; "spacy"; "geoparser"; "transformers"; "torch"; "scipy";
         "cryptography"] /\
  ~ In "jupyterlab" ["ipywidgets"; "notebook"; "pandas"; "matplotlib"; "plotly"; "mapclassify";
                     "tqdm"; "praw"; "nltk"; "spacy"; "geoparser"; "transformers"; "torch";
                     "scipy"; "cryptography"].
Proof.
  split; [vm_compute; reflexivity|].
  destruct (installs_required_summary_omits_essential Scenarios.env_pip_fails Scenarios.st_empty
              ["ipywidgets"; "notebook"; "pandas"; "matplotlib"; "plotly"; "mapclassify"; "tqdm";
               "praw"; "nltk"; "spacy"; "geoparser"; "transformers"; "torch"; "scipy";
               "cryptography"]
              (snd (InstallsRequired.main Scenarios.env_pip_fails Scenarios.st_empty)))
    as [_ Hj]; [vm_compute; reflexivity|exact Hj].
Defined.

(** Past the version check, the first thing [installs_required.py] does is
    start [sys.executable -m pip install --upgrade pip]; everything else
    comes after it. *)
Theorem installs_required_upgrades_pip_first env s :
  version_lt (py_version env) (3, 8)%Z = false ->
  exists rest,
    log (snd (InstallsRequired.main env s)) =
    log s ++ EvRun (mkCmd (InstallsRequired.pip_install_argv (sys_executable env) "pip")
                          None false) :: rest.
Proof.
  intros Hv. unfold InstallsRequired.main.
  rewrite (bind_step _ _ s true s)
    by (unfold InstallsRequired.check_python_version, ret; now rewrite Hv).
  cbn [negb].
  set (c := mkCmd (InstallsRequired.pip_install_argv (sys_executable env) "pip") None false).
  rewrite (bind_step _ _ s (call_rc env (argv c) (world s) =? 0)%Z
             (mkSt (effect env (EvRun c) (world s)) (log s ++ [EvRun c]))) by reflexivity.
  cbv beta.
  match goal with |- exists _, log (snd (?m ?s1)) = _ =>
    assert (Hm : adds (fun _ => True) m) end.
  { unfold InstallsRequired.install_core_packages, InstallsRequired.check_and_download_nltk_data,
      InstallsRequired.check_and_download_spacy_model, InstallsRequired.check_and_setup_geoparser,
      InstallsRequired.check_and_install_package, InstallsRequired.spacy_models_required,
      try_import.
    cbv beta iota zeta. cbn [InstallsRequired.spacy_model_loop]. adds_events ltac:(exact I). }
  destruct (Hm (mkSt (effect env (EvRun c) (world s)) (log s ++ [EvRun c]))) as [es [Hl _]].
  rewrite Hl. exists es. simpl. now rewrite <- app_assoc.
Qed.

Lemma installs_required_upgrades_pip_first_witness :
  exists rest,
    log (snd (InstallsRequired.main Scenarios.env_ok Scenarios.st_empty)) =
    [] ++ EvRun (mkCmd ["/usr/bin/python3"; "-m"; "pip"; "install"; "--upgrade"; "pip"]
                       None false) :: rest.
Proof.
  exact (installs_required_upgrades_pip_first Scenarios.env_ok Scenarios.st_empty eq_refl).
Defined.

Definition installs_required_event (python : string) (e : Event) : Prop :=
  match e with
  | EvRun c => timeout c = None /\ capture_output c = false /\
               exists rest, argv c = python :: "-m" :: rest
  | EvImport _ | EvNltkDownload _ => True
  | _ => False
  end.

(** Everything [installs_required.py] does is an import, an NLTK data
    download, or a [sys.executable -m ...] process (pip, spaCy or
    geoparser) started with no timeout and no output capture. It never
    removes or creates an environment and never writes a settings file. *)
Theorem installs_required_main_events env :
  adds (installs_required_event (sys_executable env)) (InstallsRequired.main env).
Proof.
  unfold InstallsRequired.main, InstallsRequired.check_python_version,
    InstallsRequired.upgrade_pip, InstallsRequired.install_core_packages,
    InstallsRequired.check_and_download_nltk_data, InstallsRequired.check_and_download_spacy_model,
    InstallsRequired.check_and_setup_geoparser, InstallsRequired.check_and_install_package,
    InstallsRequired.spacy_models_required, try_import.
  cbv beta iota zeta. cbn [InstallsRequired.spacy_model_loop].
  adds_events ltac:(hnf; first [exact I | split; [reflexivity|split; [reflexivity|eexists; reflexivity]]]).
Qed.

Definition setup_event (venv_path python : string) (e : Event) : Prop :=
  match e with
  | EvRun c => exists rest, argv c = python :: rest
  | EvRmtree p | EvVenvCreate p => p = venv_path
  | EvImport n => n = "shutil"
  | EvMakedirs _ | EvWriteSettings _ => True
  | _ => False
  end.

(** Every process [setup_python_environment.py] starts is the interpreter
    of the environment it sets up ([get_venv_python] of
    [script_dir/ds101_env]); the only path it removes or creates is that
    environment; the only module it imports in its own interpreter is
    [shutil], and it downloads nothing there. *)
Theorem setup_main_runs_only_venv_python env :
  let venv_path := path_join env (script_dir env) SetupPythonEnvironment.venv_name in
  adds (setup_event venv_path (SetupPythonEnvironment.get_venv_python env venv_path))
       (SetupPythonEnvironment.main env).
Proof.
  cbv zeta.
  unfold SetupPythonEnvironment.main, SetupPythonEnvironment.check_python_version,
    SetupPythonEnvironment.create_virtual_environment, SetupPythonEnvironment.venv_create,
    SetupPythonEnvironment.rmtree, SetupPythonEnvironment.write_settings,
    SetupPythonEnvironment.upgrade_pip_in_venv, SetupPythonEnvironment.install_packages,
    SetupPythonEnvironment.install_essential_packages,
    SetupPythonEnvironment.install_remaining_packages,
    SetupPythonEnvironment.install_package_in_venv, SetupPythonEnvironment.setup_jupyter_kernel,
    SetupPythonEnvironment.create_vscode_settings,
    SetupPythonEnvironment.check_and_download_nltk_data,
    SetupPythonEnvironment.check_and_download_spacy_model, SetupPythonEnvironment.setup_geoparser,
    SetupPythonEnvironment.write_settings.
  cbv beta iota zeta.
  adds_events ltac:(hnf; first [exact I | reflexivity | eexists; reflexivity]).
Qed.

Lemma fold_m_log {A B} (l : list A) (body : B -> A -> M B) (f : A -> list Event) acc s :
  (forall b x s, exists b' w', body b x s = (Ret b', mkSt w' (log s ++ f x))) ->
  exists b' w', fold_m l body acc s = (Ret b', mkSt w' (log s ++ flat_map f l)).
Proof.
  intros Hb. revert acc s. induction l as [|x l IH]; intros acc s; cbn [fold_m flat_map].
  - exists acc, (world s). destruct s; unfold ret; simpl. now rewrite app_nil_r.
  - destruct (Hb acc x s) as [b1 [w1 H1]]. rewrite (bind_step _ _ _ _ _ H1).
    destruct (IH b1 (mkSt w1 (log s ++ f x))) as [b2 [w2 H2]]. rewrite H2.
    exists b2, w2. simpl. now rewrite app_assoc.
Qed.

Definition venv_pip_event (env : Env) (venv_path package : string) : Event :=
  EvRun (mkCmd (SetupPythonEnvironment.pip_install_argv
                  (SetupPythonEnvironment.get_venv_python env venv_path) package) None false).

Lemma install_remaining_packages_eq env venv_path acc st :
  SetupPythonEnvironment.install_remaining_packages env venv_path acc st =
  fold_m SetupPythonEnvironment.packages (fun failed package =>
    if negb (mem package SetupPythonEnvironment.essential_packages) then
      ok <- SetupPythonEnvironment.install_package_in_venv env venv_path package ;;
      ret (if ok then failed else (failed ++ [package])%list)
    else ret failed) acc st.
Proof. reflexivity. Qed.

Lemma install_packages_returns env venv_path s failed s' :
  SetupPythonEnvironment.install_packages env venv_path s = (Ret failed, s') ->
  log s' = log s ++ map (venv_pip_event env venv_path) SetupPythonEnvironment.packages /\
  (forall p, In p failed ->
   In p SetupPythonEnvironment.packages /\ mem p SetupPythonEnvironment.essential_packages = false).
Proof.
  intros H. unfold SetupPythonEnvironment.install_packages in H.
  apply bind_ret_inv in H as [fe [s1 [He H]]].
  pose proof (install_essential_packages_failed env venv_path s fe s1 He) as Hfe.
  unfold SetupPythonEnvironment.install_essential_packages in He.
  destruct (fold_m_log SetupPythonEnvironment.essential_packages
              (fun failed package =>
                 ok <- SetupPythonEnvironment.install_package_in_venv env venv_path package ;;
                 ret (if ok then failed else (failed ++ [package])%list))
              (fun p => [venv_pip_event env venv_path p]) [] s) as [b1 [w1 H1]].
  { intros b x s0. do 2 eexists. reflexivity. }
  rewrite H1 in He. injection He as <- <-.
  destruct (existsb (fun pkg => mem pkg b1) SetupPythonEnvironment.essential_packages) eqn:Ex;
    [discriminate H|].
  assert (b1 = []) as ->.
  { destruct b1 as [|p b1]; [reflexivity|]. inversion Hfe as [|? ? Hp _]; subst.
    assert (Ht : existsb (fun pkg => mem pkg (p :: b1)) SetupPythonEnvironment.essential_packages
                 = true).
    { apply existsb_exists. exists p. split; [exact Hp|]. unfold mem. simpl.
      now rewrite String.eqb_refl. }
    congruence. }
  rewrite install_remaining_packages_eq in H.
  pose proof (fold_failed_selected _ _
                (fun p => negb (mem p SetupPythonEnvironment.essential_packages))
                _ _ _ _ H
                (fun acc x s r s' =>
                   failed_body_step _ (SetupPythonEnvironment.install_package_in_venv env venv_path)
                     acc x s r s')) as Hsel.
  match type of H with fold_m _ _ _ ?st = _ =>
  destruct (fold_m_log SetupPythonEnvironment.packages
              (fun failed package =>
                 if negb (mem package SetupPythonEnvironment.essential_packages) then
                   ok <- SetupPythonEnvironment.install_package_in_venv env venv_path package ;;
                   ret (if ok then failed else (failed ++ [package])%list)
                 else ret failed)
              (fun p => if negb (mem p SetupPythonEnvironment.essential_packages)
                        then [venv_pip_event env venv_path p] else [])
              [] st)
    as [b2 [w2 H2]] end.
  { intros b x s0. destruct (negb (mem x SetupPythonEnvironment.essential_packages)).
    - do 2 eexists. reflexivity.
    - exists b, (world s0). destruct s0. unfold ret. simpl. now rewrite app_nil_r. }
  rewrite H2 in H. injection H as <- <-. split.
  - simpl. rewrite <- app_assoc. reflexivity.
  - intros p Hp. destruct (Hsel p Hp) as [[]|[Hin Hs]]. split; [exact Hin|].
    now apply negb_true_iff.
Qed.

(** When [install_packages] returns (no essential package failed), it has
    started exactly one pip install per entry of [packages], in the order
    of that list (the essential ones first, each package once), and the
    failures it returns are non-essential packages of the list. *)
Theorem install_packages_each_once_in_order env venv_path s failed s' :
  SetupPythonEnvironment.install_packages env venv_path s = (Ret failed, s') ->
  log s' = log s ++ map (venv_pip_event env venv_path) SetupPythonEnvironment.packages /\
  (forall p, In p failed ->
   In p SetupPythonEnvironment.packages /\ mem p SetupPythonEnvironment.essential_packages = false).
Proof. exact (install_packages_returns env venv_path s failed s'). Qed.

Lemma install_packages_each_once_in_order_witness :
  length (log (snd (SetupPythonEnvironment.install_packages Scenarios.env_ok "/tmp/ds101_env"
                      Scenarios.st_empty))) = 22%nat.
Proof.
  destruct (install_packages_each_once_in_order Scenarios.env_ok "/tmp/ds101_env"
              Scenarios.st_empty []
              (snd (SetupPythonEnvironment.install_packages Scenarios.env_ok "/tmp/ds101_env"
                      Scenarios.st_empty))) as [Hl _]; [vm_compute; reflexivity|].
  rewrite Hl. reflexivity.
Defined.

(** What [create_virtual_environment] logs when it succeeds, read off what
    was at the path before. *)
Definition venv_events (st : PathState) (venv_path : string) : list Event :=
  match st with
  | Absent => [EvVenvCreate venv_path]
  | _ => [EvImport "shutil"; EvRmtree venv_path; EvVenvCreate venv_path]
  end.

(** A settings file [create_vscode_settings] can merge into: none, or one
    holding a JSON object. *)
Definition mergeable (f : FileState) : bool :=
  match f with
  | NoFile | Contents (JObj _) => true
  | _ => false
  end.

(** What [create_vscode_settings] logs when it returns: the [makedirs],
    then the write attempt when the file can be merged. *)
Definition settings_events (f : FileState) (vscode_dir settings_file : string) : list Event :=
  EvMakedirs vscode_dir :: (if mergeable f then [EvWriteSettings settings_file] else []).

Lemma create_virtual_environment_true_log env venv_path s s' :
  SetupPythonEnvironment.create_virtual_environment env venv_path s = (Ret true, s') ->
  log s' = log s ++ venv_events (venv_dir (world s)) venv_path /\
  settings_json (world s') = settings_json (world s).
Proof.
  rewrite create_virtual_environment_eq.
  destruct (venv_dir (world s)).
  - destruct (venv_create_ok env (world s)); intros H; [|discriminate H].
    injection H as <-. split; reflexivity.
  - intros H; discriminate H.
  - destruct (rmtree_ok env (world s)); [|intros H; discriminate H].
    destruct (venv_create_ok env _); intros H; [|discriminate H].
    injection H as <-. split; reflexivity.
Qed.

Lemma create_vscode_settings_log env venv_path workspace_path s b s' :
  SetupPythonEnvironment.create_vscode_settings env venv_path workspace_path s = (Ret b, s') ->
  log s' = log s ++ settings_events (settings_json (world s))
                      (path_join env workspace_path ".vscode")
                      (path_join env (path_join env workspace_path ".vscode") "settings.json").
Proof.
  unfold SetupPythonEnvironment.create_vscode_settings, SetupPythonEnvironment.write_settings.
  cbv [bind gets record emit ret uncaught_exception sys_exit].
  destruct (makedirs_ok _ _ _); cbn; [|intros H; discriminate H].
  destruct (settings_json (world s)) as [|[]|]; cbn;
    try destruct (write_ok _ _ _); cbn; intros H; injection H as _ <-; cbn;
    now rewrite <- ?app_assoc.
Qed.

(** [m] leaves the settings file as it found it. *)
Definition keeps_settings {A} (m : M A) : Prop :=
  forall s r s', m s = (r, s') -> settings_json (world s') = settings_json (world s).

Section Keeps_settings.
Variable env : Env.
Hypothesis run_keeps : forall c w, settings_json (effect env (EvRun c) w) = settings_json w.

Lemma keeps_settings_ret {A} (a : A) : keeps_settings (ret a).
Proof. intros s r s' H. now injection H as _ <-. Qed.

Lemma keeps_settings_sys_exit {A} c : keeps_settings (@sys_exit A c).
Proof. intros s r s' H. now injection H as _ <-. Qed.

Lemma keeps_settings_check_call args : keeps_settings (check_call env args).
Proof. intros s r s' H. injection H as _ <-. apply run_keeps. Qed.

Lemma keeps_settings_bind {A B} (m : M A) (k : A -> M B) :
  keeps_settings m -> (forall a, keeps_settings (k a)) -> keeps_settings (bind m k).
Proof.
  intros Hm Hk s r s' H. unfold bind in H.
  destruct (m s) as [[a|c] s1] eqn:E.
  - rewrite (Hk a s1 r s' H). exact (Hm s _ s1 E).
  - injection H as _ <-. exact (Hm s _ s1 E).
Qed.

Lemma keeps_settings_fold_m {A B} (l : list A) (body : B -> A -> M B) acc :
  (forall b x, keeps_settings (body b x)) -> keeps_settings (fold_m l body acc).
Proof.
  intros Hb. revert acc. induction l as [|x l IH]; intros acc; simpl; [apply keeps_settings_ret|].
  apply keeps_settings_bind; auto.
Qed.

Lemma install_packages_keeps_settings venv_path :
  keeps_settings (SetupPythonEnvironment.install_packages env venv_path).
Proof.
  unfold SetupPythonEnvironment.install_packages, SetupPythonEnvironment.install_essential_packages,
    SetupPythonEnvironment.install_remaining_packages,
    SetupPythonEnvironment.install_package_in_venv.
  repeat match goal with
  | |- forall _, _ => intros
  | |- keeps_settings (bind _ _) => apply keeps_settings_bind
  | |- keeps_settings (fold_m _ _ _) => apply keeps_settings_fold_m
  | |- keeps_settings (check_call _ _) => apply keeps_settings_check_call
  | |- keeps_settings (ret _) => apply keeps_settings_ret
  | |- keeps_settings (sys_exit _) => apply keeps_settings_sys_exit
  | |- keeps_settings (if ?b then _ else _) => destruct b
  end.
Qed.

End Keeps_settings.

(** A run of [setup_python_environment.py] that reaches its summary, event
    by event. [j] is the settings file as [create_vscode_settings] finds
    it: the one the run started with, when processes leave that file
    alone. *)
Lemma setup_main_log env s failed s' :
  SetupPythonEnvironment.main env s = (Ret failed, s') ->
  let venv_path := path_join env (script_dir env) SetupPythonEnvironment.venv_name in
  let py := SetupPythonEnvironment.get_venv_python env venv_path in
  let vscode_dir := path_join env (script_dir env) ".vscode" in
  let settings_file := path_join env vscode_dir "settings.json" in
  exists j,
    ((forall c w, settings_json (effect env (EvRun c) w) = settings_json w) ->
     j = settings_json (world s)) /\
    log s' = log s ++ venv_events (venv_dir (world s)) venv_path ++
      [EvRun (mkCmd (SetupPythonEnvironment.pip_install_argv py "pip") None false)] ++
      map (venv_pip_event env venv_path) SetupPythonEnvironment.packages ++
      [EvRun (mkCmd [py; "-m"; "ipykernel"; "install"; "--user"; "--name"; "ds101";
                     "--display-name"; "Python (Digital Studies 101)"] None false)] ++
      settings_events j vscode_dir settings_file ++
      [EvRun (mkCmd [py; "-c"; SetupPythonEnvironment.nltk_script] None false);
       EvRun (mkCmd (SetupPythonEnvironment.spacy_download_argv py "en_core_web_sm") None false);
       EvRun (mkCmd (SetupPythonEnvironment.spacy_download_argv py "en_core_web_md") None false);
       EvRun (mkCmd [py; "-m"; "geoparser"; "download"; "geonames"] None false)].
Proof.
  intros H venv_path py vscode_dir settings_file. unfold SetupPythonEnvironment.main in H.
  apply bind_ret_inv in H as [c [s1 [Hc H]]].
  unfold SetupPythonEnvironment.check_python_version, ret in Hc. injection Hc as <- <-.
  destruct (negb _); [discriminate H|].
  apply bind_ret_inv in H as [created [s2 [Hcr H]]].
  destruct created; [|discriminate H].
  apply create_virtual_environment_true_log in Hcr as [Hcr Hj2].
  apply bind_ret_inv in H as [u1 [s3 [Hu H]]].
  unfold SetupPythonEnvironment.upgrade_pip_in_venv in Hu.
  pose proof Hu as Hu'. unfold check_call in Hu. injection Hu as _ <-.
  apply bind_ret_inv in H as [fp [s4 [Hp H]]].
  pose proof Hp as Hp'. apply install_packages_returns in Hp as [Hp _].
  apply bind_ret_inv in H as [k [s5 [Hk H]]].
  destruct k; [|discriminate H].
  pose proof Hk as Hk'. pose (j := settings_json (world s5)).
  unfold SetupPythonEnvironment.setup_jupyter_kernel, check_call in Hk.
  injection Hk as _ <-.
  apply bind_ret_inv in H as [u2 [s6 [Hs H]]].
  apply create_vscode_settings_log in Hs.
  apply bind_ret_inv in H as [u3 [s7 [Hn H]]].
  unfold SetupPythonEnvironment.check_and_download_nltk_data, check_call in Hn.
  injection Hn as _ <-.
  apply bind_ret_inv in H as [u4 [s8 [Hsp H]]].
  unfold SetupPythonEnvironment.check_and_download_spacy_model in Hsp.
  cbv [bind ret record check_call subprocess_run for_each] in Hsp. cbn -[mem] in Hsp.
  injection Hsp as _ <-.
  apply bind_ret_inv in H as [u5 [s9 [Hg H]]].
  unfold SetupPythonEnvironment.setup_geoparser, check_call in Hg. injection Hg as _ <-.
  unfold ret in H. injection H as _ <-.
  exists j. split.
  - intros Hrun. unfold j.
    rewrite (keeps_settings_check_call env Hrun _ _ _ _ Hk').
    rewrite (install_packages_keeps_settings env Hrun _ _ _ _ Hp').
    rewrite (keeps_settings_check_call env Hrun _ _ _ _ Hu').
    exact Hj2.
  - subst j. cbn [log]. rewrite Hs, Hp, Hcr. cbn [log].
    rewrite <- !app_assoc. reflexivity.
Qed.

(** A run of [setup_python_environment.py] that reaches its summary did,
    in this order and nothing else: create the environment (after
    importing [shutil] and removing what was at the path, when something
    was), upgrade pip in it, install each entry of [packages] once in list
    order, register the Jupyter kernel, make the [.vscode] directory and
    write the VS Code settings when the file it started with could be
    merged, then run the NLTK script, the two spaCy downloads and the
    GeoNames download; provided the processes it starts leave the settings
    file alone. *)
Theorem setup_main_run_order env s failed s' :
  (forall c w, settings_json (effect env (EvRun c) w) = settings_json w) ->
  SetupPythonEnvironment.main env s = (Ret failed, s') ->
  let venv_path := path_join env (script_dir env) SetupPythonEnvironment.venv_name in
  let py := SetupPythonEnvironment.get_venv_python env venv_path in
  let vscode_dir := path_join env (script_dir env) ".vscode" in
  let settings_file := path_join env vscode_dir "settings.json" in
  log s' = log s ++ venv_events (venv_dir (world s)) venv_path ++
    [EvRun (mkCmd (SetupPythonEnvironment.pip_install_argv py "pip") None false)] ++
    map (venv_pip_event env venv_path) SetupPythonEnvironment.packages ++
    [EvRun (mkCmd [py; "-m"; "ipykernel"; "install"; "--user"; "--name"; "ds101";
                   "--display-name"; "Python (Digital Studies 101)"] None false)] ++
    settings_events (settings_json (world s)) vscode_dir settings_file ++
    [EvRun (mkCmd [py; "-c"; SetupPythonEnvironment.nltk_script] None false);
     EvRun (mkCmd (SetupPythonEnvironment.spacy_download_argv py "en_core_web_sm") None false);
     EvRun (mkCmd (SetupPythonEnvironment.spacy_download_argv py "en_core_web_md") None false);
     EvRun (mkCmd [py; "-m"; "geoparser"; "download"; "geonames"] None false)].
Proof.
  intros Hrun H venv_path py vscode_dir settings_file.
  destruct (setup_main_log env s failed s' H) as [j [Hj Hl]].
  rewrite <- (Hj Hrun). exact Hl.
Qed.

Lemma setup_main_run_order_witness :
  length (log (snd (SetupPythonEnvironment.main Scenarios.env_ok Scenarios.st_previous_setup)))
    = 33%nat.
Proof.
  rewrite (setup_main_run_order Scenarios.env_ok Scenarios.st_previous_setup []
             (snd (SetupPythonEnvironment.main Scenarios.env_ok Scenarios.st_previous_setup))
             (fun c w => eq_refl) ltac:(vm_compute; reflexivity)).
  vm_compute; reflexivity.
Defined.

(** C4 (counterexample): on a machine that already has every spaCy model,
    running [setup_python_environment.py] twice starts all 28 of its
    commands again on the second run (pip, every package, the kernel, the
    NLTK script, both spaCy downloads, the GeoNames download). *)
Lemma C4_second_setup_run_reacquires :
  let s1 := snd (SetupPythonEnvironment.main Scenarios.env_ok Scenarios.st_provisioned) in
  let s2 := snd (SetupPythonEnvironment.main Scenarios.env_ok s1) in
  fst (SetupPythonEnvironment.main Scenarios.env_ok s1) = Ret [] /\
  count_runs (log s1) = 28%nat /\
  count_runs (log s2) = 56%nat.
Proof. vm_compute. repeat split; reflexivity. Qed.

(** C4 (amended): only [installs_required.py] detects before acquiring:
    its package loop over packages that already import starts no command and
    leaves the machine unchanged, and so do its NLTK and spaCy steps when
    the data and models are present, but it upgrades pip on every run.
    [setup_python_environment.py] downloads its spaCy models on every run,
    and every run of it that reaches its summary has created the
    environment again (removing the one that was there), installed every
    entry of [packages] and started all 28 of its commands.
    [install_vscode_extensions.py] installs every extension on every run,
    without any detection. *)
Theorem C4_rerun_acquisition env packages essential vscode_cmd exts venv_path s :
  (Forall (fun p => InstallsRequired.default_import_name p <> "") packages ->
   forallb (fun p => mem p essential ||
                     mem (InstallsRequired.default_import_name p) (modules (world s)))
           packages = true ->
   InstallsRequired.install_core_packages env packages essential s =
   (Ret [], mkSt (world s)
                 (log s ++ map (fun p => EvImport (InstallsRequired.default_import_name p))
                               (filter (fun p => negb (mem p essential)) packages)))) /\
  (mem "nltk" (modules (world s)) = true ->
   forallb (fun '(_, path) => mem path (nltk_data (world s)))
           InstallsRequired.nltk_data_packages = true ->
   InstallsRequired.check_and_download_nltk_data env s =
   (Ret tt, mkSt (world s) (log s ++ [EvImport "nltk"]))) /\
  (mem "spacy" (modules (world s)) = true ->
   forallb (fun m => mem m (spacy_models (world s)))
           InstallsRequired.spacy_models_required = true ->
   InstallsRequired.check_and_download_spacy_model env s =
   (Ret tt, mkSt (world s) (log s ++ [EvImport "spacy"]))) /\
  log (snd (InstallsRequired.upgrade_pip env s)) =
    log s ++ [EvRun (mkCmd (InstallsRequired.pip_install_argv (sys_executable env) "pip")
                           None false)] /\
  (exists w',
    SetupPythonEnvironment.check_and_download_spacy_model env venv_path s =
    (Ret tt, mkSt w' (log s ++
       map (fun m => EvRun (mkCmd (SetupPythonEnvironment.spacy_download_argv
                                     (SetupPythonEnvironment.get_venv_python env venv_path) m)
                                  None false))
           SetupPythonEnvironment.spacy_models_required))) /\
  (forall failed s',
     SetupPythonEnvironment.main env s = (Ret failed, s') ->
     let setup_venv := path_join env (script_dir env) SetupPythonEnvironment.venv_name in
     exists es,
       log s' = log s ++ es /\
       In (EvVenvCreate setup_venv) es /\
       (forall old, venv_dir (world s) = IsDir old -> In (EvRmtree setup_venv) es) /\
       (forall p, In p SetupPythonEnvironment.packages -> In (venv_pip_event env setup_venv p) es) /\
       count_runs es = 28%nat) /\
  (exists failed s',
     InstallVscodeExtensions.install_extensions env vscode_cmd exts s = (Ret failed, s') /\
     log s' = log s ++ map (extension_install_event vscode_cmd) exts).
Proof.
  split; [apply install_core_packages_satisfied|].
  split; [apply nltk_data_available_no_download|].
  split; [apply spacy_models_available_no_download|].
  split; [reflexivity|].
  split.
  { destruct s as [w l].
    unfold SetupPythonEnvironment.check_and_download_spacy_model; run_m.
    eexists. simpl. now rewrite <- !app_assoc. }
  split; [|apply install_extensions_log].
  intros failed s' H setup_venv.
  destruct (setup_main_log env s failed s' H) as [j [_ Hl]].
  eexists. split; [exact Hl|].
  split; [|split; [|split]].
  - destruct (venv_dir (world s)); cbn; auto.
  - intros old Hd. rewrite Hd. cbn. auto.
  - intros p Hp. apply in_or_app; right. apply in_or_app; right. apply in_or_app; left.
    apply in_map. exact Hp.
  - unfold count_runs. rewrite !filter_app, !length_app.
    unfold settings_events. destruct (venv_dir (world s)), (mergeable j); reflexivity.
Qed.

Lemma C4_rerun_acquisition_witness :
  InstallsRequired.install_core_packages Scenarios.env_ok InstallsRequired.core_packages
    InstallsRequired.essential_packages Scenarios.st_provisioned =
  (Ret [], mkSt Scenarios.world_provisioned
                (map EvImport ["ipywidgets"; "notebook"; "pandas"; "matplotlib"; "plotly";
                               "mapclassify"; "tqdm"; "praw"; "nltk"; "spacy"; "geoparser";
                               "transformers"; "torch"; "scipy"; "cryptography"])) /\
  InstallsRequired.check_and_download_spacy_model Scenarios.env_ok Scenarios.st_provisioned =
  (Ret tt, mkSt Scenarios.world_provisioned [EvImport "spacy"]) /\
  exists es,
    log (snd (SetupPythonEnvironment.main Scenarios.env_ok Scenarios.st_provisioned)) =
      log Scenarios.st_provisioned ++ es /\
    count_runs es = 28%nat.
Proof.
  destruct (C4_rerun_acquisition Scenarios.env_ok InstallsRequired.core_packages
              InstallsRequired.essential_packages "code" [] "/srv/venv"
              Scenarios.st_provisioned) as [H1 [_ [H3 [_ [_ [H6 _]]]]]].
  split; [|split].
  - apply H1; [repeat constructor; vm_compute; discriminate|reflexivity].
  - exact (H3 eq_refl eq_refl).
  - destruct (H6 [] (snd (SetupPythonEnvironment.main Scenarios.env_ok Scenarios.st_provisioned)))
      as [es [Hl [_ [_ [_ Hc]]]]]; [vm_compute; reflexivity|].
    exists es. split; [exact Hl|exact Hc].
Defined.

End Props.
